(** * terraform-provider-uyuni: the provider package, embedded and verified

    The development follows the three Go files of [internal/provider]:
    [provider.go] (provider configuration), [user_resource.go] (the
    [uyuni_user] resource) and [users_data_source.go] (the [uyuni_users]
    data source).

    The Terraform plugin framework and the Uyuni API client are libraries
    outside the repository.  Their values are modelled by what the provider
    code observes of them: [types.String] by its three states, diagnostics
    by the framework's append-without-duplicates list, the API client by
    the answers the server behind it gives, and [tflog] together with the
    API calls by a trace of events. *)

From Stdlib Require Import ZArith String Ascii List Bool.
From stdpp Require Import base decidable option list strings gmap.

Open Scope string_scope.
Open Scope list_scope.

(** ** Framework values *)

(** [types.String]: null, unknown, or a known Go string. *)
Inductive tfString : Type :=
| StringNull
| StringUnknown
| StringValue (s : string).

Global Instance tfString_eq_dec : EqDecision tfString.
Proof. solve_decision. Defined.

Definition IsNull (v : tfString) : bool :=
  match v with StringNull => true | _ => false end.

Definition IsUnknown (v : tfString) : bool :=
  match v with StringUnknown => true | _ => false end.

(** [ValueString] gives the empty string for null and unknown values. *)
Definition ValueString (v : tfString) : string :=
  match v with StringValue s => s | _ => "" end.

(** [types.Int64]; the data source only builds known values. *)
Inductive tfInt64 : Type :=
| Int64Null
| Int64Unknown
| Int64Value (n : Z).

(** ** Diagnostics *)

Module diag.

Inductive Severity : Type := SeverityError | SeverityWarning.

Global Instance Severity_eq_dec : EqDecision Severity.
Proof. solve_decision. Defined.

(** A diagnostic; [AttrPath] is the [path.Root] of an attribute diagnostic. *)
Record Diagnostic : Type := mkDiagnostic {
  DSeverity : Severity;
  Summary : string;
  Detail : string;
  AttrPath : option string
}.

Global Instance Diagnostic_eq_dec : EqDecision Diagnostic.
Proof. solve_decision. Defined.

Definition Diagnostics : Type := list Diagnostic.

Definition is_error (d : Diagnostic) : bool :=
  bool_decide (DSeverity d = SeverityError).

Definition HasError (ds : Diagnostics) : bool := existsb is_error ds.

(** [Diagnostics.Append] skips a diagnostic that is already contained. *)
Definition Append_one (ds : Diagnostics) (d : Diagnostic) : Diagnostics :=
  if decide (d ∈ ds) then ds else ds ++ [d].

Definition Append (ds : Diagnostics) (new : Diagnostics) : Diagnostics :=
  fold_left Append_one new ds.

Definition NewErrorDiagnostic (summary detail : string) : Diagnostic :=
  mkDiagnostic SeverityError summary detail None.

Definition NewAttributeErrorDiagnostic (p summary detail : string) : Diagnostic :=
  mkDiagnostic SeverityError summary detail (Some p).

Definition AddError (ds : Diagnostics) (summary detail : string) : Diagnostics :=
  Append ds [NewErrorDiagnostic summary detail].

Definition AddAttributeError (ds : Diagnostics) (p summary detail : string)
  : Diagnostics :=
  Append ds [NewAttributeErrorDiagnostic p summary detail].

End diag.

(** What [Get] on a [tfsdk.Plan], [tfsdk.State] or [tfsdk.Config] hands to
    the operation: the diagnostics of the decoding and the model it filled. *)
Record Decoded (T : Type) : Type := mkDecoded {
  Get_diags : diag.Diagnostics;
  Get_value : T
}.
Arguments mkDecoded {T} _ _.
Arguments Get_diags {T} _.
Arguments Get_value {T} _.

(** ** The wire records of the package *)

(** [user_api] of [users_data_source.go]: one record of [user/listUsers]. *)
Module user_api.
Record t : Type := mk {
  Id : Z;
  Login : string;
  Login_UC : string;
  Enabled : bool
}.
End user_api.

(** [user_api] local to [userResource.Read]: the answer of
    [user/getDetails]. *)
Module Read_user_api.
Record t : Type := mk {
  First_names : string;
  First_name : string;
  Last_name : string;
  Email : string;
  Org_id : Z;
  Org_name : string;
  Prefix : string;
  Last_login_date : string;
  Created_date : string;
  Enabled : bool;
  Use_pam : bool;
  Read_only : bool;
  Errata_notification : bool
}.
End Read_user_api.

(** ** The API client of uyuni-tools, as the provider uses it *)

Module api.

(** Go's [error]: the provider only calls [Error()] on it. *)
Record error : Type := mkError { Error : string }.

Record ApiResponse (T : Type) : Type := mkApiResponse { Result : T }.
Arguments mkApiResponse {T} _.
Arguments Result {T} _.

Record ConnectionDetails : Type := mkConnectionDetails {
  Server : string;
  User : string;
  Password : string;
  CAcert : string;
  Insecure : bool
}.

(** A client handle is modelled by the answers of the server behind it, one
    field per instantiation of [api.Post] and [api.Get] in the package. *)
Record HTTPClient : Type := mkHTTPClient {
  Post_int : string -> gmap string string -> ApiResponse Z + error;
  Get_user : string -> ApiResponse Read_user_api.t + error;
  Get_users : string -> ApiResponse (list user_api.t) + error
}.

End api.

(** An [any] holding provider data: nil, a client handle, or a value of
    another dynamic type, of which only the [%T] rendering is observed. *)
Inductive any : Type :=
| nil_any
| HTTPClient_ptr (c : api.HTTPClient)
| other_type (T : string).

Definition Sprintf_T (v : any) : string :=
  match v with
  | nil_any => "<nil>"
  | HTTPClient_ptr _ => "*api.HTTPClient"
  | other_type T => T
  end.

(** ** Events: what an operation does besides filling its response *)

Inductive Level : Type := LevelDebug | LevelInfo.

Inductive Event : Type :=
| Log (lvl : Level) (msg : string) (fields : list (string * string))
| ApiInit (conn : api.ConnectionDetails)
| ApiPost (endpoint : string) (data : gmap string string)
| ApiGet (endpoint : string).

Definition is_log (e : Event) : bool :=
  match e with Log _ _ _ => true | _ => false end.

Definition is_api_call (e : Event) : bool := negb (is_log e).

(** The log channel and the remote calls of a trace. *)
Definition log_of (t : list Event) : list Event := List.filter is_log t.
Definition api_calls (t : list Event) : list Event := List.filter is_api_call t.

(** [tflog]'s context: the fields set on it and the keys to mask. *)
Record Context : Type := mkContext {
  ctx_fields : list (string * string);
  ctx_masked : list string
}.

Definition SetField (ctx : Context) (k v : string) : Context :=
  mkContext (ctx_fields ctx ++ [(k, v)]) (ctx_masked ctx).

Definition MaskFieldValuesWithFieldKeys (ctx : Context) (k : string) : Context :=
  mkContext (ctx_fields ctx) (ctx_masked ctx ++ [k]).

Definition shown_fields (ctx : Context) : list (string * string) :=
  List.map (fun kv => if bool_decide (fst kv ∈ ctx_masked ctx)
                      then (fst kv, "***") else kv) (ctx_fields ctx).

(** ** The monad of an operation

    An operation receives a pointer to its response and mutates it; it also
    logs and calls the API.  [M R A] threads the response [R] and the trace. *)

Definition M (R A : Type) : Type := R -> list Event -> A * R * list Event.

Definition ret {R A} (a : A) : M R A := fun r t => (a, r, t).

Definition bind {R A B} (m : M R A) (k : A -> M R B) : M R B :=
  fun r t => let '(a, r', t') := m r t in k a r' t'.

Global Instance M_ret {R} : MRet (M R) := fun A => @ret R A.
Global Instance M_bind {R} : MBind (M R) := fun A B k m => bind m k.

Definition emit {R} (e : Event) : M R unit := fun r t => (tt, r, t ++ [e]).

Definition get_resp {R} : M R R := fun r t => (r, r, t).
Definition modify_resp {R} (f : R -> R) : M R unit := fun r t => (tt, f r, t).

(** Calling an operation on a response, from an empty trace: what it
    returns, the response and the trace it leaves. *)
Definition call {R A} (m : M R A) (r : R) : A * R * list Event := m r [].

(** The same, for an operation that returns nothing. *)
Definition run {R A} (m : M R A) (r : R) : R * list Event :=
  let '(_, r', t) := call m r in (r', t).

Definition tflog_Info {R} (ctx : Context) (msg : string)
    (extra : list (string * string)) : M R unit :=
  emit (Log LevelInfo msg (shown_fields ctx ++ extra)).

Definition tflog_Debug {R} (ctx : Context) (msg : string)
    (extra : list (string * string)) : M R unit :=
  emit (Log LevelDebug msg (shown_fields ctx ++ extra)).

Definition api_Post {R} (c : api.HTTPClient) (endpoint : string)
    (data : gmap string string) : M R (api.ApiResponse Z + api.error) :=
  emit (ApiPost endpoint data);; mret (api.Post_int c endpoint data).

Definition api_Get_user {R} (c : api.HTTPClient) (endpoint : string)
  : M R (api.ApiResponse Read_user_api.t + api.error) :=
  emit (ApiGet endpoint);; mret (api.Get_user c endpoint).

Definition api_Get_users {R} (c : api.HTTPClient) (endpoint : string)
  : M R (api.ApiResponse (list user_api.t) + api.error) :=
  emit (ApiGet endpoint);; mret (api.Get_users c endpoint).

Definition api_Init {R}
    (Init : api.ConnectionDetails -> api.HTTPClient + api.error)
    (conn : api.ConnectionDetails) : M R (api.HTTPClient + api.error) :=
  emit (ApiInit conn);; mret (Init conn).

(** ** Responses

    Every response embeds [Diagnostics]; the class gives the operations on
    that field to all of them. *)

Class HasDiagnostics (R : Type) : Type := {
  Diagnostics : R -> diag.Diagnostics;
  with_Diagnostics : diag.Diagnostics -> R -> R
}.

Section resp_Diagnostics.
Context {R : Type} `{HasDiagnostics R}.

Definition resp_Append (ds : diag.Diagnostics) : M R unit :=
  modify_resp (fun r => with_Diagnostics (diag.Append (Diagnostics r) ds) r).

Definition resp_AddError (summary detail : string) : M R unit :=
  modify_resp
    (fun r => with_Diagnostics (diag.AddError (Diagnostics r) summary detail) r).

Definition resp_AddAttributeError (p summary detail : string) : M R unit :=
  modify_resp
    (fun r => with_Diagnostics
                (diag.AddAttributeError (Diagnostics r) p summary detail) r).

Definition resp_HasError : M R bool :=
  r ← get_resp; mret (diag.HasError (Diagnostics r)).
End resp_Diagnostics.

(** The response of a resource or data source operation: diagnostics and
    the [tfsdk.State], [None] being the null state.  [State.Set] on a model
    whose fields match the schema reports no diagnostic and replaces the
    state. *)
Record Response (T : Type) : Type := mkResponse {
  Response_Diagnostics : diag.Diagnostics;
  State : option T
}.
Arguments mkResponse {T} _ _.
Arguments Response_Diagnostics {T} _.
Arguments State {T} _.

Global Instance Response_HasDiagnostics {T} : HasDiagnostics (Response T) := {
  Diagnostics := Response_Diagnostics;
  with_Diagnostics ds r := mkResponse ds (State r)
}.

Definition State_Set {T} (v : T) : M (Response T) diag.Diagnostics :=
  modify_resp (fun r => mkResponse (Response_Diagnostics r) (Some v));;
  mret [].

(** The response of a [Configure] of a resource or data source. *)
Record ConfigureResponse : Type := mkConfigureResponse {
  ConfigureResponse_Diagnostics : diag.Diagnostics
}.

Global Instance ConfigureResponse_HasDiagnostics
  : HasDiagnostics ConfigureResponse := {
  Diagnostics := ConfigureResponse_Diagnostics;
  with_Diagnostics ds _ := mkConfigureResponse ds
}.

Record ConfigureRequest : Type := mkConfigureRequest { ProviderData : any }.

(** ** user_resource.go *)

Module userResourceModel.
Record t : Type := mk {
  Login : tfString;
  Password : tfString;
  FirstName : tfString;
  LastName : tfString;
  Email : tfString
}.
End userResourceModel.

(** The renderings of library values that the resource writes to the log:
    [%q] of a Go string (used by [types.String.String]), and [%v] of a
    [tfsdk.State] and of the answer of [user/getDetails]. *)
Record Formatter : Type := mkFormatter {
  Sprintf_q : string -> string;
  Sprintf_v_State : option userResourceModel.t -> string;
  Sprintf_v_user : Read_user_api.t -> string
}.

(** [types.String.String]: the value for humans, a known string quoted. *)
Definition String_ (F : Formatter) (v : tfString) : string :=
  match v with
  | StringNull => "<null>"
  | StringUnknown => "<unknown>"
  | StringValue s => Sprintf_q F s
  end.

Module userResource.

Import userResourceModel.

(** The resource implementation; [None] is the nil client. *)
Record t : Type := mk { client : option api.HTTPClient }.

Definition NewUserResource : t := mk None.

Record CreateRequest : Type := mkCreateRequest {
  Plan : Decoded userResourceModel.t
}.

Record ReadRequest : Type := mkReadRequest {
  ReadRequest_State : Decoded userResourceModel.t
}.

Record DeleteRequest : Type := mkDeleteRequest {
  DeleteRequest_State : Decoded userResourceModel.t
}.

Definition CreateResponse : Type := Response userResourceModel.t.
Definition ReadResponse : Type := Response userResourceModel.t.
Definition DeleteResponse : Type := Response userResourceModel.t.

Definition Metadata (ProviderTypeName : string) : string :=
  ProviderTypeName +:+ "_user".

Section operations.
(** [client] is [r.client] of a configured resource, [ctx] the context of
    the call. *)
Variable F : Formatter.
Variable client : api.HTTPClient.
Variable ctx : Context.

Definition Create_data (plan : userResourceModel.t) : gmap string string :=
  <["login" := ValueString (Login plan)]>
  (<["password" := ValueString (Password plan)]>
  (<["firstName" := ValueString (FirstName plan)]>
  (<["lastName" := ValueString (LastName plan)]>
  (<["email" := ValueString (Email plan)]> ∅)))).

Definition Create_log_line (plan : userResourceModel.t) : string :=
  "" +:+ String_ F (Login plan) +:+ " - " +:+ String_ F (Password plan)
     +:+ " - " +:+ String_ F (FirstName plan)
     +:+ " - " +:+ String_ F (LastName plan)
     +:+ " - " +:+ String_ F (Email plan).

Definition Create (req : CreateRequest) : M CreateResponse unit :=
  (* Retrieve values from plan *)
  let plan := Get_value (Plan req) in
  let diags := Get_diags (Plan req) in
  resp_Append diags;;
  failed ← resp_HasError;
  if failed : bool then mret tt else
  (* Create new user *)
  let data := Create_data plan in
  tflog_Info ctx "About to create user" [];;
  tflog_Info ctx (Create_log_line plan) [];;
  res ← api_Post client "user/create" data;
  match res with
  | inr err =>
      resp_AddError "Error creating user"
        ("Could not create user, unexpected error: " +:+ api.Error err)
  | inl _ =>
      tflog_Info ctx "User created" [];;
      (* Set state to fully populated data *)
      diags ← State_Set plan;
      resp ← get_resp;
      tflog_Info ctx
        ("Updated state object be like: " +:+ Sprintf_v_State F (State resp)) [];;
      resp_Append diags;;
      failed ← resp_HasError;
      if failed : bool then mret tt else mret tt
  end.

Definition Read (req : ReadRequest) : M ReadResponse unit :=
  (* Get current state *)
  let state := Get_value (ReadRequest_State req) in
  let diags := Get_diags (ReadRequest_State req) in
  resp_Append diags;;
  failed ← resp_HasError;
  if failed : bool then mret tt else
  (* Get refreshed user value from Uyuni *)
  tflog_Info ctx ("About to look for user " +:+ ValueString (Login state)) [];;
  this_user ← api_Get_user client
                ("user/getDetails?login=" +:+ ValueString (Login state));
  match this_user with
  | inr err =>
      resp_AddError "Error Reading Uyuuni user"
        ("Could not read User " +:+ ValueString (Login state) +:+ ": "
           +:+ api.Error err)
  | inl this_user =>
      let state := userResourceModel.mk (Login state) (Password state)
        (StringValue (Read_user_api.First_name (api.Result this_user)))
        (LastName state) (Email state) in
      let state := userResourceModel.mk (Login state) (Password state)
        (FirstName state)
        (StringValue (Read_user_api.Last_name (api.Result this_user)))
        (Email state) in
      let state := userResourceModel.mk (Login state) (Password state)
        (FirstName state) (LastName state)
        (StringValue (Read_user_api.Email (api.Result this_user))) in
      tflog_Info ctx
        ("Information returned from API: "
           +:+ Sprintf_v_user F (api.Result this_user)) [];;
      (* Set refreshed state *)
      diags ← State_Set state;
      resp_Append diags;;
      failed ← resp_HasError;
      if failed : bool then mret tt else mret tt
  end.

(** [Update] has an empty body. *)
Definition Update : M (Response userResourceModel.t) unit := mret tt.

Definition Delete (req : DeleteRequest) : M DeleteResponse unit :=
  (* Retrieve values from state *)
  let state := Get_value (DeleteRequest_State req) in
  let diags := Get_diags (DeleteRequest_State req) in
  resp_Append diags;;
  failed ← resp_HasError;
  if failed : bool then mret tt else
  (* Delete existing user *)
  res ← api_Post client ("user/delete?login=" +:+ ValueString (Login state)) ∅;
  match res with
  | inr err =>
      resp_AddError "Error Deleting Uyuni user"
        ("Could not delete order, unexpected error: " +:+ api.Error err)
  | inl _ => mret tt
  end.
End operations.

(** [Configure] mutates the receiver as well as the response: it returns
    the receiver it leaves. *)
Definition Configure (r : t) (req : ConfigureRequest) : M ConfigureResponse t :=
  match ProviderData req with
  | nil_any => mret r
  | HTTPClient_ptr client => mret (mk (Some client))
  | other =>
      resp_AddError "Unexpected Data Source Configure Type"
        ("Expected *uyuni.client, got: " +:+ Sprintf_T other
           +:+ ". Please report this issue to the provider developers.");;
      mret r
  end.

End userResource.

(** ** users_data_source.go *)

Module userModel.
Record t : Type := mk {
  ID : tfInt64;
  Login : tfString
}.
End userModel.

Module UsersDataSourceModel.
Record t : Type := mk { Users : list userModel.t }.
End UsersDataSourceModel.

Module UsersDataSource.

Import UsersDataSourceModel.

Record t : Type := mk { client : option api.HTTPClient }.

Definition NewUsersDataSource : t := mk None.

Definition ReadResponse : Type := Response UsersDataSourceModel.t.

Definition Metadata (ProviderTypeName : string) : string :=
  ProviderTypeName +:+ "_users".

(** One turn of the loop over [users.Result]: [int64(this_user.Id)] keeps
    the value of a Go [int]. *)
Definition Read_step (state : UsersDataSourceModel.t) (this_user : user_api.t)
  : UsersDataSourceModel.t :=
  let userState :=
    userModel.mk (Int64Value (user_api.Id this_user))
                 (StringValue (user_api.Login this_user)) in
  UsersDataSourceModel.mk (Users state ++ [userState]).

Definition Read (client : api.HTTPClient) : M ReadResponse unit :=
  let state := UsersDataSourceModel.mk [] in
  (* read users from API *)
  users ← api_Get_users client "user/listUsers";
  match users with
  | inr err => resp_AddError "Unable to Read Uyuni user" (api.Error err)
  | inl users =>
      (* Map response body to model *)
      let state := fold_left Read_step (api.Result users) state in
      (* Set state *)
      diags ← State_Set state;
      resp_Append diags;;
      failed ← resp_HasError;
      if failed : bool then mret tt else mret tt
  end.

Definition Configure (d : t) (req : ConfigureRequest) : M ConfigureResponse t :=
  match ProviderData req with
  | nil_any => mret d
  | HTTPClient_ptr client => mret (mk (Some client))
  | other =>
      resp_AddError "Unexpected Data Source Configure Type"
        ("Expected *api.HTTPClient, got: " +:+ Sprintf_T other
           +:+ ". Please report this issue to the provider developers.");;
      mret d
  end.

End UsersDataSource.

(** ** provider.go *)

Module uyuniProviderModel.
Record t : Type := mk {
  Host : tfString;
  Username : tfString;
  Password : tfString
}.
End uyuniProviderModel.

Module uyuniProvider.

Import uyuniProviderModel.

Record t : Type := mk { version : string }.

Record ConfigureRequest : Type := mkConfigureRequest {
  Config : Decoded uyuniProviderModel.t
}.

Record ConfigureResponse : Type := mkConfigureResponse {
  ConfigureResponse_Diagnostics : diag.Diagnostics;
  DataSourceData : any;
  ResourceData : any
}.

Global Instance ConfigureResponse_HasDiagnostics
  : HasDiagnostics ConfigureResponse := {
  Diagnostics := ConfigureResponse_Diagnostics;
  with_Diagnostics ds r := mkConfigureResponse ds (DataSourceData r) (ResourceData r)
}.

Definition Metadata (p : t) : string * string := ("uyuni", version p).

(** [os.Getenv]: the value of the variable, empty when it is not set. *)
Definition os_Getenv (env : gmap string string) (key : string) : string :=
  default "" (env !! key).

Section Configure.
(** [Init] is [api.Init], [env] the environment of the process. *)
Variable Init : api.ConnectionDetails -> api.HTTPClient + api.error.
Variable env : gmap string string.

Definition Configure (ctx : Context) (req : ConfigureRequest)
  : M ConfigureResponse unit :=
  tflog_Info ctx "Configuring Uyuni client" [];;
  (* Retrieve provider data from configuration *)
  let config := Get_value (Config req) in
  let diags := Get_diags (Config req) in
  resp_Append diags;;
  failed ← resp_HasError;
  if failed : bool then mret tt else
  (* If practitioner provided a configuration value for any of the
     attributes, it must be a known value. *)
  (if IsUnknown (Host config) then
     resp_AddAttributeError "host" "Unknown Uyuni API Host"
       ("The provider cannot create the Uyuni API client as there is an unknown configuration value for the Uyuni API host. "
        +:+ "Either target apply the source of the value first, set the value statically in the configuration, or use the Uyuni_HOST environment variable.")
   else mret tt);;
  (if IsUnknown (Username config) then
     resp_AddAttributeError "username" "Unknown Uyuni API Username"
       ("The provider cannot create the Uyuni API client as there is an unknown configuration value for the Uyuni API username. "
        +:+ "Either target apply the source of the value first, set the value statically in the configuration, or use the Uyuni_USERNAME environment variable.")
   else mret tt);;
  (if IsUnknown (Password config) then
     resp_AddAttributeError "password" "Unknown Uyuni API Password"
       ("The provider cannot create the Uyuni API client as there is an unknown configuration value for the Uyuni API password. "
        +:+ "Either target apply the source of the value first, set the value statically in the configuration, or use the Uyuni_PASSWORD environment variable.")
   else mret tt);;
  failed ← resp_HasError;
  if failed : bool then mret tt else
  (* Default values to environment variables, but override
     with Terraform configuration value if set. *)
  let host := os_Getenv env "UYUNI_HOST" in
  let username := os_Getenv env "UYUNI_USERNAME" in
  let password := os_Getenv env "UYUNI_PASSWORD" in
  let host := if negb (IsNull (Host config))
              then ValueString (Host config) else host in
  let username := if negb (IsNull (Username config))
                  then ValueString (Username config) else username in
  let password := if negb (IsNull (Password config))
                  then ValueString (Password config) else password in
  (* If any of the expected configurations are missing, return
     errors with provider-specific guidance. *)
  (if bool_decide (host = "") then
     resp_AddAttributeError "host" "Missing Uyuni API Host"
       ("The provider cannot create the Uyuni API client as there is a missing or empty value for the Uyuni API host. "
        +:+ "Set the host value in the configuration or use the Uyuni_HOST environment variable. "
        +:+ "If either is already set, ensure the value is not empty.")
   else mret tt);;
  (if bool_decide (username = "") then
     resp_AddAttributeError "username" "Missing Uyuni API Username"
       ("The provider cannot create the Uyuni API client as there is a missing or empty value for the Uyuni API username. "
        +:+ "Set the username value in the configuration or use the Uyuni_USERNAME environment variable. "
        +:+ "If either is already set, ensure the value is not empty.")
   else mret tt);;
  (if bool_decide (password = "") then
     resp_AddAttributeError "password" "Missing Uyuni API Password"
       ("The provider cannot create the Uyuni API client as there is a missing or empty value for the Uyuni API password. "
        +:+ "Set the password value in the configuration or use the Uyuni_PASSWORD environment variable. "
        +:+ "If either is already set, ensure the value is not empty.")
   else mret tt);;
  failed ← resp_HasError;
  if failed : bool then mret tt else
  let ctx := SetField ctx "uyuni_host" host in
  let ctx := SetField ctx "uyuni_username" username in
  let ctx := SetField ctx "uyuni_password" password in
  let ctx := MaskFieldValuesWithFieldKeys ctx "uyuni_password" in
  tflog_Debug ctx "Creating HashiCups client" [];;
  (* Create a new Uyuni client using the configuration values *)
  let _conn := api.mkConnectionDetails host username password "" true in
  res ← api_Init Init _conn;
  match res with
  | inr err =>
      resp_AddError "Unable to Create Uyuni API Client"
        ("An unexpected error occurred when creating the Uyuni API client. "
         +:+ "If the error is not clear, please contact the provider developers." +:+ String "010" (String "010" "")
         +:+ "Uyuni Client Error: " +:+ api.Error err)
  | inl client =>
      (* Make the Uyuni client available during DataSource and Resource
         type Configure methods. *)
      modify_resp (fun r => mkConfigureResponse (ConfigureResponse_Diagnostics r)
                              (HTTPClient_ptr client) (ResourceData r));;
      modify_resp (fun r => mkConfigureResponse (ConfigureResponse_Diagnostics r)
                              (DataSourceData r) (HTTPClient_ptr client));;
      tflog_Info ctx "Configured Uyuni client" [("success", "true")]
  end.
End Configure.

(** [New]: the provider for a version (the source returns the function
    that builds it). *)
Definition New (version : string) : t := mk version.

(** The data sources and resources of the provider, by their
    constructors. *)
Definition DataSources (p : t) : list UsersDataSource.t :=
  [UsersDataSource.NewUsersDataSource].

Definition Resources (p : t) : list userResource.t :=
  [userResource.NewUserResource].


End uyuniProvider.

(** ** Definitions used to state the properties *)

(** The trace of a [Create] up to and including its remote call. *)
Definition Create_trace_to_call (F : Formatter) (ctx : Context)
    (plan : userResourceModel.t) : list Event :=
  [Log LevelInfo "About to create user" (shown_fields ctx ++ []);
   Log LevelInfo (userResource.Create_log_line F plan) (shown_fields ctx ++ []);
   ApiPost "user/create" (userResource.Create_data plan)].

(** The trace of a [Read] up to and including its remote call. *)
Definition Read_trace_to_call (ctx : Context) (state : userResourceModel.t)
  : list Event :=
  [Log LevelInfo
     ("About to look for user " +:+ ValueString (userResourceModel.Login state))
     (shown_fields ctx ++ []);
   ApiGet ("user/getDetails?login="
             +:+ ValueString (userResourceModel.Login state))].

(** What the spec says a successful Read leaves: login and password of the
    state held before, the three other fields from the server's record. *)
Definition refreshed (state : userResourceModel.t) (u : Read_user_api.t)
  : userResourceModel.t :=
  userResourceModel.mk
    (userResourceModel.Login state)
    (userResourceModel.Password state)
    (StringValue (Read_user_api.First_name u))
    (StringValue (Read_user_api.Last_name u))
    (StringValue (Read_user_api.Email u)).

(** What the spec says a listing entry is: [{id, login}] of the record. *)
Definition listing_entry (u : user_api.t) : userModel.t :=
  userModel.mk (Int64Value (user_api.Id u)) (StringValue (user_api.Login u)).

(** What the spec says a connection field resolves to: the explicit value,
    the environment variable when the configuration leaves it null. *)
Definition explicit_or_env (c : tfString) (e : string) : string :=
  match c with
  | StringNull => e
  | StringValue s => s
  | StringUnknown => ""
  end.

(** A formatter for the examples: [%q] on strings that need no escape puts
    them between double quotes. *)
Definition dquote : string := String "034" "".

Definition example_Formatter : Formatter :=
  mkFormatter (fun s => dquote +:+ s +:+ dquote) (fun _ => "{state}") (fun _ => "{user}").

(** Stub clients for the examples: one whose server accepts every call,
    answers [0] to a POST and the given records to a GET; one that refuses
    every call with the message it is given. *)
Definition accepting_client (u : Read_user_api.t) (us : list user_api.t)
  : api.HTTPClient :=
  api.mkHTTPClient
    (fun _ _ => inl (api.mkApiResponse 0%Z))
    (fun _ => inl (api.mkApiResponse u))
    (fun _ => inl (api.mkApiResponse us)).

Definition failing_client (msg : string) : api.HTTPClient :=
  api.mkHTTPClient
    (fun _ _ => inr (api.mkError msg))
    (fun _ => inr (api.mkError msg))
    (fun _ => inr (api.mkError msg)).

(** A record of [user/getDetails] and two of [user/listUsers]. *)
Definition simone : Read_user_api.t :=
  Read_user_api.mk "" "Simone" "Giertz" "simone@foo.bar" 1 "SVA" "Dr."
    "" "" true false false false.

Definition two_users : list user_api.t :=
  [user_api.mk 1 "admin" "ADMIN" true; user_api.mk 7 "sgiertz" "SGIERTZ" true].

Definition no_context : Context := mkContext [] [].

(** The plan of the spec's scenario. *)
Definition sgiertz : userResourceModel.t :=
  userResourceModel.mk (StringValue "sgiertz") (StringValue "test123")
    (StringValue "Simone") (StringValue "Giertz") (StringValue "sgiertz@foo.bar").

(** A fresh response, as the framework hands it to [Create]. *)
Definition fresh_Response {T} : Response T := mkResponse [] None.

(** A server that stores what [user/create] received: the handle answers
    [user/getDetails] with the names and email of the payload. *)
Definition echo_client (data : gmap string string) : api.HTTPClient :=
  api.mkHTTPClient
    (fun _ _ => inl (api.mkApiResponse 0%Z))
    (fun _ => inl (api.mkApiResponse
                     (Read_user_api.mk ""
                        (default "" (data !! "firstName"))
                        (default "" (data !! "lastName"))
                        (default "" (data !! "email"))
                        1 "" "" "" "" true false false false)))
    (fun _ => inl (api.mkApiResponse [])).

(** A decoding that fails: the diagnostics hold an error and the model is
    left at its zero value. *)
Definition decode_failure : Decoded userResourceModel.t :=
  mkDecoded [diag.NewErrorDiagnostic "Value Conversion Error" "login is not a string"]
    (userResourceModel.mk StringNull StringNull StringNull StringNull StringNull).

(** * Properties *)

(** ** Diagnostics *)

Section diag_facts.
Import diag.

Lemma HasError_app (a b : Diagnostics) :
  HasError (a ++ b) = HasError a || HasError b.
Proof. unfold HasError. apply existsb_app. Qed.

Lemma HasError_false_not_in (ds : Diagnostics) (d : Diagnostic) :
  HasError ds = false -> is_error d = true -> d ∉ ds.
Proof.
  intros Hds Hd Hin.
  assert (HasError ds = true) as Habs; [|congruence].
  unfold HasError. apply existsb_exists. exists d. split; [|done].
  by apply list_elem_of_In.
Qed.

Lemma Append_one_HasError (ds : Diagnostics) (d : Diagnostic) :
  HasError (Append_one ds d) = HasError ds || is_error d.
Proof.
  unfold Append_one. destruct (decide (d ∈ ds)) as [Hin|Hin].
  - destruct (is_error d) eqn:Hd; [|by rewrite orb_false_r].
    rewrite orb_true_r. unfold HasError. apply existsb_exists.
    exists d. split; [by apply list_elem_of_In|done].
  - rewrite HasError_app. simpl. by rewrite orb_false_r.
Qed.

Lemma Append_HasError (new ds : Diagnostics) :
  HasError (Append ds new) = HasError ds || HasError new.
Proof.
  unfold Append. revert ds.
  induction new as [|d new IH]; intros ds; simpl.
  - by rewrite orb_false_r.
  - rewrite IH, Append_one_HasError. by rewrite orb_assoc.
Qed.

Lemma AddError_HasError (ds : Diagnostics) (summary detail : string) :
  HasError (AddError ds summary detail) = true.
Proof.
  unfold AddError. rewrite Append_HasError. simpl. by rewrite orb_true_r.
Qed.

Lemma AddError_fresh (ds : Diagnostics) (summary detail : string) :
  HasError ds = false ->
  AddError ds summary detail = ds ++ [NewErrorDiagnostic summary detail].
Proof.
  intros Hds. unfold AddError, Append, Append_one. simpl.
  destruct (decide _) as [Hin|]; [|done].
  by apply HasError_false_not_in in Hin.
Qed.

Lemma AddError_elem (ds : Diagnostics) (summary detail : string) :
  NewErrorDiagnostic summary detail ∈ AddError ds summary detail.
Proof.
  unfold AddError, Append, Append_one. simpl.
  destruct (decide _) as [Hin|]; [done|].
  apply elem_of_app. right. by apply list_elem_of_singleton.
Qed.

Lemma AddAttributeError_unless_in (ds : Diagnostics) (p summary detail : string) :
  NewAttributeErrorDiagnostic p summary detail ∉ ds ->
  AddAttributeError ds p summary detail
  = ds ++ [NewAttributeErrorDiagnostic p summary detail].
Proof.
  intros Hnin. unfold AddAttributeError, Append, Append_one. simpl.
  by destruct (decide _).
Qed.
End diag_facts.

(** Unfolding one run of an operation down to its response and trace. *)
Ltac unfold_op :=
  unfold run, call, mbind, mret, M_bind, M_ret, bind, ret,
    resp_Append, resp_AddError, resp_AddAttributeError, resp_HasError,
    State_Set, tflog_Info, tflog_Debug, api_Post, api_Get_user, api_Get_users,
    api_Init, emit, get_resp, modify_resp,
    mbind, mret, M_bind, M_ret, bind, ret; simpl.

(** ** Strings *)

Lemma list_ascii_of_string_app (a b : string) :
  list_ascii_of_string (a +:+ b)
  = list_ascii_of_string a ++ list_ascii_of_string b.
Proof. induction a as [|c a IH]; simpl; [done|]. by rewrite IH. Qed.

Lemma list_ascii_of_string_inj (a b : string) :
  list_ascii_of_string a = list_ascii_of_string b -> a = b.
Proof.
  intros Heq.
  rewrite <- (string_of_list_ascii_of_string a),
          <- (string_of_list_ascii_of_string b).
  by rewrite Heq.
Qed.

Lemma string_app_inv_tail (a b t : string) : a +:+ t = b +:+ t -> a = b.
Proof.
  intros Heq. apply list_ascii_of_string_inj.
  apply (f_equal list_ascii_of_string) in Heq.
  rewrite !list_ascii_of_string_app in Heq.
  by apply app_inv_tail in Heq.
Qed.

Lemma string_app_inv_head (h a b : string) : h +:+ a = h +:+ b -> a = b.
Proof.
  induction h as [|c h IH]; simpl; [done|].
  intros Heq. apply IH. by injection Heq.
Qed.

(** ** The user resource *)

Section user_resource_facts.
Import userResource userResourceModel.
Variables (F : Formatter) (client : api.HTTPClient) (ctx : Context).

Lemma Create_run (req : CreateRequest) (resp : CreateResponse) :
  run (Create F client ctx req) resp =
  let plan := Get_value (Plan req) in
  let ds := diag.Append (Diagnostics resp) (Get_diags (Plan req)) in
  if diag.HasError ds then (mkResponse ds (State resp), [])
  else match api.Post_int client "user/create" (Create_data plan) with
       | inl _ =>
           (mkResponse ds (Some plan),
            Create_trace_to_call F ctx plan ++
            [Log LevelInfo "User created" (shown_fields ctx ++ []);
             Log LevelInfo ("Updated state object be like: "
                              +:+ Sprintf_v_State F (Some plan))
                 (shown_fields ctx ++ [])])
       | inr err =>
           (mkResponse
              (diag.AddError ds "Error creating user"
                 ("Could not create user, unexpected error: " +:+ api.Error err))
              (State resp),
            Create_trace_to_call F ctx plan)
       end.
Proof.
  unfold Create. unfold_op.
  destruct (diag.HasError (diag.Append _ _)) eqn:Herr; [done|].
  destruct (api.Post_int _ _ _) as [r|err]; simpl.
  - by rewrite Herr.
  - done.
Qed.

Lemma Read_run (req : ReadRequest) (resp : ReadResponse) :
  run (Read F client ctx req) resp =
  let state := Get_value (ReadRequest_State req) in
  let ds := diag.Append (Diagnostics resp) (Get_diags (ReadRequest_State req)) in
  if diag.HasError ds then (mkResponse ds (State resp), [])
  else match api.Get_user client
               ("user/getDetails?login=" +:+ ValueString (Login state)) with
       | inl this_user =>
           (mkResponse ds (Some (refreshed state (api.Result this_user))),
            Read_trace_to_call ctx state ++
            [Log LevelInfo ("Information returned from API: "
                              +:+ Sprintf_v_user F (api.Result this_user))
                 (shown_fields ctx ++ [])])
       | inr err =>
           (mkResponse
              (diag.AddError ds "Error Reading Uyuuni user"
                 ("Could not read User " +:+ ValueString (Login state)
                    +:+ ": " +:+ api.Error err))
              (State resp),
            Read_trace_to_call ctx state)
       end.
Proof.
  unfold Read. unfold_op.
  destruct (diag.HasError (diag.Append _ _)) eqn:Herr; [done|].
  destruct (api.Get_user _ _) as [r|err]; simpl.
  - by rewrite Herr.
  - done.
Qed.

(** Diagnostics without an error stay so when the decoding adds none. *)
Lemma accepted (ds new : diag.Diagnostics) :
  diag.HasError ds = false -> diag.HasError new = false ->
  diag.HasError (diag.Append ds new) = false.
Proof. intros H1 H2. by rewrite Append_HasError, H1, H2. Qed.
End user_resource_facts.

Import userResource userResourceModel.

(** C2. When the plan decodes without error and [user/create] succeeds,
    [Create] writes exactly the plan as the state, reports no error, and its
    only remote call is the POST to [user/create]: nothing is read back. *)
Theorem Create_success_state_is_plan
    (F : Formatter) (client : api.HTTPClient) (ctx : Context)
    (req : CreateRequest) (resp : CreateResponse) (r : api.ApiResponse Z) :
  diag.HasError (Diagnostics resp) = false ->
  diag.HasError (Get_diags (Plan req)) = false ->
  api.Post_int client "user/create" (Create_data (Get_value (Plan req))) = inl r ->
  State (run (Create F client ctx req) resp).1 = Some (Get_value (Plan req))
  /\ diag.HasError (Diagnostics (run (Create F client ctx req) resp).1) = false
  /\ api_calls (run (Create F client ctx req) resp).2
     = [ApiPost "user/create" (Create_data (Get_value (Plan req)))].
Proof.
  intros Hresp Hplan Hpost. rewrite Create_run. cbv zeta.
  rewrite (accepted _ _ Hresp Hplan), Hpost. simpl.
  split; [done|]. split; [|done]. by apply accepted.
Qed.

(** The scenario of the spec: the plan of user sgiertz against a stub that
    accepts any payload and answers [0]. *)
Lemma Create_success_state_is_plan_witness :
  State (run (Create example_Formatter (accepting_client simone []) no_context
                (mkCreateRequest (mkDecoded [] sgiertz))) fresh_Response).1
  = Some sgiertz
  /\ diag.HasError
       (Diagnostics
          (run (Create example_Formatter (accepting_client simone []) no_context
                  (mkCreateRequest (mkDecoded [] sgiertz))) fresh_Response).1)
     = false
  /\ api_calls
       (run (Create example_Formatter (accepting_client simone []) no_context
               (mkCreateRequest (mkDecoded [] sgiertz))) fresh_Response).2
     = [ApiPost "user/create" (Create_data sgiertz)].
Proof.
  apply (Create_success_state_is_plan example_Formatter
           (accepting_client simone []) no_context
           (mkCreateRequest (mkDecoded [] sgiertz)) fresh_Response
           (api.mkApiResponse 0%Z)); reflexivity.
Defined.

(** C6. When the plan decodes without error and [user/create] fails,
    [Create] reports an error and leaves the state of the response as it
    was: on the null state the framework hands it, the resource stays
    absent. *)
Theorem Create_failure_writes_no_state
    (F : Formatter) (client : api.HTTPClient) (ctx : Context)
    (req : CreateRequest) (resp : CreateResponse) (err : api.error) :
  diag.HasError (Diagnostics resp) = false ->
  diag.HasError (Get_diags (Plan req)) = false ->
  api.Post_int client "user/create" (Create_data (Get_value (Plan req))) = inr err ->
  diag.HasError (Diagnostics (run (Create F client ctx req) resp).1) = true
  /\ State (run (Create F client ctx req) resp).1 = State resp.
Proof.
  intros Hresp Hplan Hpost. rewrite Create_run. cbv zeta.
  rewrite (accepted _ _ Hresp Hplan), Hpost. simpl.
  split; [|done]. apply AddError_HasError.
Qed.

Lemma Create_failure_writes_no_state_witness :
  diag.HasError
    (Diagnostics
       (run (Create example_Formatter (failing_client "boom") no_context
               (mkCreateRequest (mkDecoded [] sgiertz))) fresh_Response).1) = true
  /\ State (run (Create example_Formatter (failing_client "boom") no_context
                   (mkCreateRequest (mkDecoded [] sgiertz))) fresh_Response).1
     = None.
Proof.
  apply (Create_failure_writes_no_state example_Formatter
           (failing_client "boom") no_context
           (mkCreateRequest (mkDecoded [] sgiertz)) fresh_Response
           (api.mkError "boom")); reflexivity.
Defined.

(** C8, as stated, fails: with a server that refuses with the message
    ["boom"], no diagnostic of the response has ["boom"] as its summary or
    as its detail. *)
Lemma Create_error_message_not_verbatim :
  ~ exists d : diag.Diagnostic,
      d ∈ Diagnostics
            (run (Create example_Formatter (failing_client "boom") no_context
                    (mkCreateRequest (mkDecoded [] sgiertz))) fresh_Response).1
      /\ (diag.Detail d = "boom" \/ diag.Summary d = "boom").
Proof.
  intros [d [Hin Hmsg]]. vm_compute in Hin.
  apply list_elem_of_singleton in Hin. subst d.
  destruct Hmsg as [H|H]; vm_compute in H; discriminate H.
Qed.

(** C8, amended. When the plan decodes without error and [user/create]
    fails, [Create] appends one error diagnostic whose summary is
    ["Error creating user"] and whose detail is the prefix
    ["Could not create user, unexpected error: "] followed by the message of
    the underlying error, unchanged. *)
Theorem Create_failure_error_detail
    (F : Formatter) (client : api.HTTPClient) (ctx : Context)
    (req : CreateRequest) (resp : CreateResponse) (err : api.error) :
  diag.HasError (Diagnostics resp) = false ->
  diag.HasError (Get_diags (Plan req)) = false ->
  api.Post_int client "user/create" (Create_data (Get_value (Plan req))) = inr err ->
  Diagnostics (run (Create F client ctx req) resp).1
  = diag.Append (Diagnostics resp) (Get_diags (Plan req))
    ++ [diag.NewErrorDiagnostic "Error creating user"
          ("Could not create user, unexpected error: " +:+ api.Error err)].
Proof.
  intros Hresp Hplan Hpost. rewrite Create_run. cbv zeta.
  rewrite (accepted _ _ Hresp Hplan), Hpost. simpl.
  apply AddError_fresh. by apply accepted.
Qed.

Lemma Create_failure_error_detail_witness :
  Diagnostics
    (run (Create example_Formatter (failing_client "boom") no_context
            (mkCreateRequest (mkDecoded [] sgiertz))) fresh_Response).1
  = [diag.NewErrorDiagnostic "Error creating user"
       "Could not create user, unexpected error: boom"].
Proof.
  apply (Create_failure_error_detail example_Formatter
           (failing_client "boom") no_context
           (mkCreateRequest (mkDecoded [] sgiertz)) fresh_Response
           (api.mkError "boom")); reflexivity.
Defined.

(** C9. [Create] writes the rendering of the plan's password to the log:
    after the announcement, the second log entry is the line made of the
    five fields' [String()], the password's among them.  Whenever that
    rendering tells values apart, two runs on plans that differ only in the
    password leave different logs. *)
Theorem Create_logs_password
    (F : Formatter) (client1 client2 : api.HTTPClient) (ctx : Context)
    (req1 req2 : CreateRequest) (resp1 resp2 : CreateResponse) :
  (forall a b : tfString, String_ F a = String_ F b -> a = b) ->
  diag.HasError (Diagnostics resp1) = false ->
  diag.HasError (Get_diags (Plan req1)) = false ->
  diag.HasError (Diagnostics resp2) = false ->
  diag.HasError (Get_diags (Plan req2)) = false ->
  Login (Get_value (Plan req1)) = Login (Get_value (Plan req2)) ->
  FirstName (Get_value (Plan req1)) = FirstName (Get_value (Plan req2)) ->
  LastName (Get_value (Plan req1)) = LastName (Get_value (Plan req2)) ->
  Email (Get_value (Plan req1)) = Email (Get_value (Plan req2)) ->
  Password (Get_value (Plan req1)) <> Password (Get_value (Plan req2)) ->
  log_of (run (Create F client1 ctx req1) resp1).2 !! 1%nat
  = Some (Log LevelInfo
            ("" +:+ String_ F (Login (Get_value (Plan req1)))
                +:+ " - " +:+ String_ F (Password (Get_value (Plan req1)))
                +:+ " - " +:+ String_ F (FirstName (Get_value (Plan req1)))
                +:+ " - " +:+ String_ F (LastName (Get_value (Plan req1)))
                +:+ " - " +:+ String_ F (Email (Get_value (Plan req1))))
            (shown_fields ctx ++ []))
  /\ log_of (run (Create F client1 ctx req1) resp1).2
     <> log_of (run (Create F client2 ctx req2) resp2).2.
Proof.
  intros Hinj Hr1 Hp1 Hr2 Hp2 HL HF HN HE HP.
  rewrite !Create_run. cbv zeta.
  rewrite (accepted _ _ Hr1 Hp1), (accepted _ _ Hr2 Hp2).
  assert (Create_log_line F (Get_value (Plan req1))
          <> Create_log_line F (Get_value (Plan req2))) as Hline.
  { unfold Create_log_line. rewrite HL, HF, HN, HE. intros Heq.
    apply HP, Hinj.
    do 3 apply string_app_inv_head in Heq.
    by apply string_app_inv_tail in Heq. }
  destruct (api.Post_int client1 _ _), (api.Post_int client2 _ _); simpl;
    (split; [done|]); intros Heq; apply Hline; congruence.
Qed.

Lemma example_Formatter_String_inj (a b : tfString) :
  String_ example_Formatter a = String_ example_Formatter b -> a = b.
Proof.
  destruct a as [| |a], b as [| |b]; simpl; try done.
  intros Heq. f_equal.
  injection Heq as Heq. exact (string_app_inv_tail a b dquote Heq).
Qed.

(** Two plans for sgiertz that differ only in the password. *)
Lemma Create_logs_password_witness :
  log_of (run (Create example_Formatter (accepting_client simone []) no_context
                 (mkCreateRequest (mkDecoded [] sgiertz))) fresh_Response).2
    !! 1%nat
  = Some (Log LevelInfo
            (dquote +:+ "sgiertz" +:+ dquote +:+ " - "
               +:+ dquote +:+ "test123" +:+ dquote +:+ " - "
               +:+ dquote +:+ "Simone" +:+ dquote +:+ " - "
               +:+ dquote +:+ "Giertz" +:+ dquote +:+ " - "
               +:+ dquote +:+ "sgiertz@foo.bar" +:+ dquote) [])
  /\ log_of (run (Create example_Formatter (accepting_client simone []) no_context
                    (mkCreateRequest (mkDecoded [] sgiertz))) fresh_Response).2
     <> log_of (run (Create example_Formatter (accepting_client simone [])
                       no_context
                       (mkCreateRequest
                          (mkDecoded []
                             (userResourceModel.mk (StringValue "sgiertz")
                                (StringValue "hunter2") (StringValue "Simone")
                                (StringValue "Giertz")
                                (StringValue "sgiertz@foo.bar")))))
                  fresh_Response).2.
Proof.
  apply (Create_logs_password example_Formatter
           (accepting_client simone []) (accepting_client simone []) no_context
           (mkCreateRequest (mkDecoded [] sgiertz))
           (mkCreateRequest
              (mkDecoded []
                 (userResourceModel.mk (StringValue "sgiertz")
                    (StringValue "hunter2") (StringValue "Simone")
                    (StringValue "Giertz") (StringValue "sgiertz@foo.bar"))))
           fresh_Response fresh_Response);
    [exact example_Formatter_String_inj | reflexivity .. | discriminate].
Defined.

(** C1. When [Read] ends without an error diagnostic, [user/getDetails]
    has answered with a record, and the state written has the first name,
    last name and email of that record and the login and password of the
    state held before. *)
Theorem Read_success_refreshes_names_only
    (F : Formatter) (client : api.HTTPClient) (ctx : Context)
    (req : ReadRequest) (resp : ReadResponse) :
  diag.HasError (Diagnostics (run (Read F client ctx req) resp).1) = false ->
  exists (this_user : api.ApiResponse Read_user_api.t) (state' : userResourceModel.t),
    api.Get_user client
      ("user/getDetails?login="
         +:+ ValueString (Login (Get_value (ReadRequest_State req))))
    = inl this_user
    /\ State (run (Read F client ctx req) resp).1 = Some state'
    /\ FirstName state' = StringValue (Read_user_api.First_name (api.Result this_user))
    /\ LastName state' = StringValue (Read_user_api.Last_name (api.Result this_user))
    /\ Email state' = StringValue (Read_user_api.Email (api.Result this_user))
    /\ Login state' = Login (Get_value (ReadRequest_State req))
    /\ Password state' = Password (Get_value (ReadRequest_State req)).
Proof.
  rewrite Read_run. cbv zeta.
  destruct (diag.HasError (diag.Append _ _)) eqn:Herr; simpl.
  { intros Habs. simpl in Herr. congruence. }
  destruct (api.Get_user _ _) as [this_user|err]; simpl.
  - intros _. exists this_user. eexists. repeat split.
  - intros Habs. by rewrite AddError_HasError in Habs.
Qed.

Lemma Read_success_refreshes_names_only_witness :
  exists (this_user : api.ApiResponse Read_user_api.t) (state' : userResourceModel.t),
    api.Get_user (accepting_client simone []) ("user/getDetails?login=" +:+ "sgiertz")
    = inl this_user
    /\ State (run (Read example_Formatter (accepting_client simone []) no_context
                     (mkReadRequest (mkDecoded [] sgiertz)))
                (mkResponse [] (Some sgiertz))).1 = Some state'
    /\ FirstName state' = StringValue (Read_user_api.First_name (api.Result this_user))
    /\ LastName state' = StringValue (Read_user_api.Last_name (api.Result this_user))
    /\ Email state' = StringValue (Read_user_api.Email (api.Result this_user))
    /\ Login state' = StringValue "sgiertz"
    /\ Password state' = StringValue "test123".
Proof.
  apply (Read_success_refreshes_names_only example_Formatter
           (accepting_client simone []) no_context
           (mkReadRequest (mkDecoded [] sgiertz)) (mkResponse [] (Some sgiertz))).
  reflexivity.
Defined.

(** C7. When the state decodes without error and [user/getDetails] fails,
    [Read] appends one error diagnostic whose detail names the login of the
    state and ends with the message of the underlying error, and leaves the
    state of the response as it was. *)
Theorem Read_failure_keeps_state
    (F : Formatter) (client : api.HTTPClient) (ctx : Context)
    (req : ReadRequest) (resp : ReadResponse) (err : api.error) :
  diag.HasError (Diagnostics resp) = false ->
  diag.HasError (Get_diags (ReadRequest_State req)) = false ->
  api.Get_user client
    ("user/getDetails?login="
       +:+ ValueString (Login (Get_value (ReadRequest_State req))))
  = inr err ->
  Diagnostics (run (Read F client ctx req) resp).1
  = diag.Append (Diagnostics resp) (Get_diags (ReadRequest_State req))
    ++ [diag.NewErrorDiagnostic "Error Reading Uyuuni user"
          ("Could not read User "
             +:+ ValueString (Login (Get_value (ReadRequest_State req)))
             +:+ ": " +:+ api.Error err)]
  /\ diag.HasError (Diagnostics (run (Read F client ctx req) resp).1) = true
  /\ State (run (Read F client ctx req) resp).1 = State resp.
Proof.
  intros Hresp Hstate Hget. rewrite Read_run. cbv zeta.
  rewrite (accepted _ _ Hresp Hstate), Hget. simpl.
  split; [|split; [|done]].
  - apply AddError_fresh. by apply accepted.
  - apply AddError_HasError.
Qed.

Lemma Read_failure_keeps_state_witness :
  Diagnostics
    (run (Read example_Formatter (failing_client "no such user") no_context
            (mkReadRequest (mkDecoded [] sgiertz)))
       (mkResponse [] (Some sgiertz))).1
  = [diag.NewErrorDiagnostic "Error Reading Uyuuni user"
       "Could not read User sgiertz: no such user"]
  /\ diag.HasError
       (Diagnostics
          (run (Read example_Formatter (failing_client "no such user") no_context
                  (mkReadRequest (mkDecoded [] sgiertz)))
             (mkResponse [] (Some sgiertz))).1) = true
  /\ State (run (Read example_Formatter (failing_client "no such user") no_context
                   (mkReadRequest (mkDecoded [] sgiertz)))
              (mkResponse [] (Some sgiertz))).1 = Some sgiertz.
Proof.
  apply (Read_failure_keeps_state example_Formatter
           (failing_client "no such user") no_context
           (mkReadRequest (mkDecoded [] sgiertz)) (mkResponse [] (Some sgiertz))
           (api.mkError "no such user")); reflexivity.
Defined.

(** ** The users data source *)

Lemma Read_step_fold (us : list user_api.t) (state : UsersDataSourceModel.t) :
  fold_left UsersDataSource.Read_step us state
  = UsersDataSourceModel.mk
      (UsersDataSourceModel.Users state ++ List.map listing_entry us).
Proof.
  revert state. induction us as [|u us IH]; intros state; simpl.
  - rewrite app_nil_r. by destruct state.
  - rewrite IH. simpl. by rewrite <- app_assoc.
Qed.

Lemma UsersDataSource_Read_run
    (client : api.HTTPClient) (resp : UsersDataSource.ReadResponse) :
  run (UsersDataSource.Read client) resp =
  match api.Get_users client "user/listUsers" with
  | inl users =>
      (mkResponse (Diagnostics resp)
         (Some (UsersDataSourceModel.mk (List.map listing_entry (api.Result users)))),
       [ApiGet "user/listUsers"])
  | inr err =>
      (mkResponse
         (diag.AddError (Diagnostics resp) "Unable to Read Uyuni user" (api.Error err))
         (State resp),
       [ApiGet "user/listUsers"])
  end.
Proof.
  unfold UsersDataSource.Read. unfold_op.
  destruct (api.Get_users _ _) as [users|err]; simpl; [|done].
  rewrite Read_step_fold. simpl.
  by destruct (diag.HasError _).
Qed.

(** C3. When [user/listUsers] answers with a sequence of records, [Read]
    of the data source stores one entry [{id, login}] per record, in the
    order of the answer: as many entries as records, the i-th entry made of
    the i-th record; it adds no diagnostic, and an empty answer gives an
    empty listing. *)
Theorem UsersDataSource_Read_lists_in_order
    (client : api.HTTPClient) (resp : UsersDataSource.ReadResponse)
    (users : api.ApiResponse (list user_api.t)) :
  api.Get_users client "user/listUsers" = inl users ->
  exists state : UsersDataSourceModel.t,
    State (run (UsersDataSource.Read client) resp).1 = Some state
    /\ UsersDataSourceModel.Users state = List.map listing_entry (api.Result users)
    /\ length (UsersDataSourceModel.Users state) = length (api.Result users)
    /\ (forall i : nat,
          UsersDataSourceModel.Users state !! i
          = (fun u => userModel.mk (Int64Value (user_api.Id u))
                                   (StringValue (user_api.Login u)))
              <$> (api.Result users !! i))
    /\ (api.Result users = [] -> UsersDataSourceModel.Users state = [])
    /\ Diagnostics (run (UsersDataSource.Read client) resp).1 = Diagnostics resp.
Proof.
  intros Hget. rewrite UsersDataSource_Read_run, Hget. simpl.
  eexists. split; [done|]. simpl.
  split; [done|]. split; [by rewrite length_map|].
  split; [|split; [by intros ->|done]].
  intros i. by rewrite <- list_lookup_fmap.
Qed.

Lemma UsersDataSource_Read_lists_in_order_witness :
  exists state : UsersDataSourceModel.t,
    State (run (UsersDataSource.Read (accepting_client simone two_users))
             fresh_Response).1 = Some state
    /\ UsersDataSourceModel.Users state
       = [userModel.mk (Int64Value 1) (StringValue "admin");
          userModel.mk (Int64Value 7) (StringValue "sgiertz")]
    /\ length (UsersDataSourceModel.Users state) = 2%nat
    /\ (forall i : nat,
          UsersDataSourceModel.Users state !! i
          = (fun u => userModel.mk (Int64Value (user_api.Id u))
                                   (StringValue (user_api.Login u)))
              <$> (two_users !! i))
    /\ (two_users = [] -> UsersDataSourceModel.Users state = [])
    /\ Diagnostics (run (UsersDataSource.Read (accepting_client simone two_users))
                      fresh_Response).1 = [].
Proof.
  apply (UsersDataSource_Read_lists_in_order (accepting_client simone two_users)
           fresh_Response (api.mkApiResponse two_users)).
  reflexivity.
Defined.

(** An empty answer: no entry, no diagnostic. *)
Example UsersDataSource_Read_empty :
  run (UsersDataSource.Read (accepting_client simone [])) fresh_Response
  = (mkResponse [] (Some (UsersDataSourceModel.mk [])), [ApiGet "user/listUsers"]).
Proof. reflexivity. Qed.

(** ** The provider *)

Lemma resolved_explicit_or_env (c : tfString) (e : string) :
  (if negb (IsNull c) then ValueString c else e) = explicit_or_env c e.
Proof. by destruct c. Qed.

Lemma os_Getenv_unset (env : gmap string string) (key : string) :
  env !! key = None -> uyuniProvider.os_Getenv env key = "".
Proof. intros Hkey. unfold uyuniProvider.os_Getenv. by rewrite Hkey. Qed.

Lemma AddAttributeError_HasError (ds : diag.Diagnostics) (p summary detail : string) :
  diag.HasError (diag.AddAttributeError ds p summary detail) = true.
Proof.
  unfold diag.AddAttributeError. rewrite Append_HasError. simpl.
  by rewrite orb_true_r.
Qed.

Lemma filter_is_error_nil (ds : diag.Diagnostics) :
  diag.HasError ds = false -> List.filter diag.is_error ds = [].
Proof.
  induction ds as [|d ds IH]; simpl; [done|].
  destruct (diag.is_error d); simpl; [done|]. exact IH.
Qed.

(** Three attribute errors on distinct attributes, added to diagnostics
    without an error, are all appended. *)
Lemma three_attribute_errors (ds : diag.Diagnostics)
    (p1 s1 d1 p2 s2 d2 p3 s3 d3 : string) :
  diag.HasError ds = false -> p1 <> p2 -> p1 <> p3 -> p2 <> p3 ->
  diag.AddAttributeError
    (diag.AddAttributeError (diag.AddAttributeError ds p1 s1 d1) p2 s2 d2)
    p3 s3 d3
  = ds ++ [diag.NewAttributeErrorDiagnostic p1 s1 d1;
           diag.NewAttributeErrorDiagnostic p2 s2 d2;
           diag.NewAttributeErrorDiagnostic p3 s3 d3].
Proof.
  intros Hds H12 H13 H23.
  assert (forall p s d, diag.NewAttributeErrorDiagnostic p s d ∉ ds) as Hnew.
  { intros p s d. by apply HasError_false_not_in. }
  rewrite (AddAttributeError_unless_in ds) by apply Hnew.
  rewrite (AddAttributeError_unless_in (ds ++ _) p2).
  2:{ intros [Hin|Heq%list_elem_of_singleton]%elem_of_app; [by apply Hnew in Hin|].
      injection Heq as ? ? ?. by apply H12. }
  rewrite AddAttributeError_unless_in.
  2:{ intros [[Hin|Heq%list_elem_of_singleton]%elem_of_app
             |Heq%list_elem_of_singleton]%elem_of_app;
        [by apply Hnew in Hin| |].
      - injection Heq as ? ? ?. by apply H13.
      - injection Heq as ? ? ?. by apply H23. }
  by rewrite <- !app_assoc.
Qed.


(** C4. When the configuration decodes without error, none of the three
    values is unknown and none resolves to the empty string, [Configure]
    calls [api.Init] once, with the connection whose host, username and
    password are each the explicit value of the configuration, or the
    environment variable [UYUNI_HOST], [UYUNI_USERNAME], [UYUNI_PASSWORD]
    where the configuration leaves the value null. *)
Theorem Configure_resolves_connection
    (Init : api.ConnectionDetails -> api.HTTPClient + api.error)
    (env : gmap string string) (ctx : Context)
    (req : uyuniProvider.ConfigureRequest) (resp : uyuniProvider.ConfigureResponse) :
  diag.HasError (Diagnostics resp) = false ->
  diag.HasError (Get_diags (uyuniProvider.Config req)) = false ->
  IsUnknown (uyuniProviderModel.Host (Get_value (uyuniProvider.Config req))) = false ->
  IsUnknown (uyuniProviderModel.Username (Get_value (uyuniProvider.Config req))) = false ->
  IsUnknown (uyuniProviderModel.Password (Get_value (uyuniProvider.Config req))) = false ->
  explicit_or_env (uyuniProviderModel.Host (Get_value (uyuniProvider.Config req))) (uyuniProvider.os_Getenv env "UYUNI_HOST") <> "" ->
  explicit_or_env (uyuniProviderModel.Username (Get_value (uyuniProvider.Config req))) (uyuniProvider.os_Getenv env "UYUNI_USERNAME") <> "" ->
  explicit_or_env (uyuniProviderModel.Password (Get_value (uyuniProvider.Config req)))
    (uyuniProvider.os_Getenv env "UYUNI_PASSWORD") <> "" ->
  api_calls (run (uyuniProvider.Configure Init env ctx req) resp).2
  = [ApiInit
       (api.mkConnectionDetails
          (explicit_or_env (uyuniProviderModel.Host (Get_value (uyuniProvider.Config req))) (uyuniProvider.os_Getenv env "UYUNI_HOST"))
          (explicit_or_env (uyuniProviderModel.Username (Get_value (uyuniProvider.Config req)))
             (uyuniProvider.os_Getenv env "UYUNI_USERNAME"))
          (explicit_or_env (uyuniProviderModel.Password (Get_value (uyuniProvider.Config req)))
             (uyuniProvider.os_Getenv env "UYUNI_PASSWORD"))
          "" true)].
Proof.
  intros Hresp Hcfg HuH HuU HuP HH HU HP.
  unfold uyuniProvider.Configure. unfold_op.
  pose proof (accepted _ _ Hresp Hcfg) as Hacc. simpl in Hacc.
  rewrite Hacc, HuH, HuU, HuP. simpl. rewrite Hacc.
  rewrite !resolved_explicit_or_env.
  rewrite !bool_decide_eq_false_2 by done. simpl. rewrite Hacc.
  destruct (Init _); simpl; done.
Qed.

(** With host ["h"] in the configuration and only [UYUNI_USERNAME=u] and
    [UYUNI_PASSWORD=p] in the environment, the connection is
    [{host: h, username: u, password: p}]. *)
Lemma Configure_resolves_connection_witness :
  api_calls
    (run (uyuniProvider.Configure
            (fun _ => inl (accepting_client simone []))
            (<["UYUNI_USERNAME" := "u"]> (<["UYUNI_PASSWORD" := "p"]> ∅))
            no_context
            (uyuniProvider.mkConfigureRequest
               (mkDecoded [] (uyuniProviderModel.mk (StringValue "h")
                                StringNull StringNull))))
       (uyuniProvider.mkConfigureResponse [] nil_any nil_any)).2
  = [ApiInit (api.mkConnectionDetails "h" "u" "p" "" true)].
Proof.
  refine (eq_trans
            (Configure_resolves_connection
               (fun _ => inl (accepting_client simone []))
               (<["UYUNI_USERNAME" := "u"]> (<["UYUNI_PASSWORD" := "p"]> ∅))
               no_context
               (uyuniProvider.mkConfigureRequest
                  (mkDecoded [] (uyuniProviderModel.mk (StringValue "h")
                                   StringNull StringNull)))
               (uyuniProvider.mkConfigureResponse [] nil_any nil_any)
               _ _ _ _ _ _ _ _) _);
    try (vm_compute; reflexivity); vm_compute; discriminate.
Defined.

(** C5. When the configuration decodes without error, leaves host,
    username and password null, and none of the three environment
    variables is set, [Configure] appends three missing-value errors, for
    host, username and password in this order; these are all the errors of
    the response; the client is not built: [api.Init] is not called and the
    data handed to data sources and resources stays as it was. *)
Theorem Configure_reports_three_missing
    (Init : api.ConnectionDetails -> api.HTTPClient + api.error)
    (env : gmap string string) (ctx : Context)
    (req : uyuniProvider.ConfigureRequest) (resp : uyuniProvider.ConfigureResponse) :
  diag.HasError (Diagnostics resp) = false ->
  diag.HasError (Get_diags (uyuniProvider.Config req)) = false ->
  uyuniProviderModel.Host (Get_value (uyuniProvider.Config req)) = StringNull ->
  uyuniProviderModel.Username (Get_value (uyuniProvider.Config req)) = StringNull ->
  uyuniProviderModel.Password (Get_value (uyuniProvider.Config req)) = StringNull ->
  env !! "UYUNI_HOST" = None ->
  env !! "UYUNI_USERNAME" = None ->
  env !! "UYUNI_PASSWORD" = None ->
  (exists detail_host detail_username detail_password : string,
     Diagnostics (run (uyuniProvider.Configure Init env ctx req) resp).1
     = diag.Append (Diagnostics resp) (Get_diags (uyuniProvider.Config req))
       ++ [diag.NewAttributeErrorDiagnostic "host" "Missing Uyuni API Host" detail_host;
           diag.NewAttributeErrorDiagnostic "username" "Missing Uyuni API Username"
             detail_username;
           diag.NewAttributeErrorDiagnostic "password" "Missing Uyuni API Password"
             detail_password])
  /\ length (List.filter diag.is_error
               (Diagnostics (run (uyuniProvider.Configure Init env ctx req) resp).1))
     = 3%nat
  /\ uyuniProvider.DataSourceData (run (uyuniProvider.Configure Init env ctx req) resp).1
     = uyuniProvider.DataSourceData resp
  /\ uyuniProvider.ResourceData (run (uyuniProvider.Configure Init env ctx req) resp).1
     = uyuniProvider.ResourceData resp
  /\ api_calls (run (uyuniProvider.Configure Init env ctx req) resp).2 = [].
Proof.
  intros Hresp Hcfg HH HU HP HeH HeU HeP.
  unfold uyuniProvider.Configure. unfold_op.
  pose proof (accepted _ _ Hresp Hcfg) as Hacc. simpl in Hacc.
  rewrite Hacc, HH, HU, HP. simpl. rewrite Hacc.
  rewrite !os_Getenv_unset by done. simpl.
  rewrite AddAttributeError_HasError. simpl.
  rewrite three_attribute_errors by done.
  split; [by do 3 eexists|].
  split; [|done].
  rewrite List.filter_app, filter_is_error_nil by done. done.
Qed.

Lemma Configure_reports_three_missing_witness :
  (exists detail_host detail_username detail_password : string,
     Diagnostics
       (run (uyuniProvider.Configure (fun _ => inl (accepting_client simone []))
               ∅ no_context
               (uyuniProvider.mkConfigureRequest
                  (mkDecoded [] (uyuniProviderModel.mk StringNull StringNull
                                   StringNull))))
          (uyuniProvider.mkConfigureResponse [] nil_any nil_any)).1
     = [diag.NewAttributeErrorDiagnostic "host" "Missing Uyuni API Host" detail_host;
        diag.NewAttributeErrorDiagnostic "username" "Missing Uyuni API Username"
          detail_username;
        diag.NewAttributeErrorDiagnostic "password" "Missing Uyuni API Password"
          detail_password])
  /\ length
       (List.filter diag.is_error
          (Diagnostics
             (run (uyuniProvider.Configure
                     (fun _ => inl (accepting_client simone []))
                     ∅ no_context
                     (uyuniProvider.mkConfigureRequest
                        (mkDecoded [] (uyuniProviderModel.mk StringNull StringNull
                                         StringNull))))
                (uyuniProvider.mkConfigureResponse [] nil_any nil_any)).1))
     = 3%nat
  /\ uyuniProvider.DataSourceData
       (run (uyuniProvider.Configure (fun _ => inl (accepting_client simone []))
               ∅ no_context
               (uyuniProvider.mkConfigureRequest
                  (mkDecoded [] (uyuniProviderModel.mk StringNull StringNull
                                   StringNull))))
          (uyuniProvider.mkConfigureResponse [] nil_any nil_any)).1
     = nil_any
  /\ uyuniProvider.ResourceData
       (run (uyuniProvider.Configure (fun _ => inl (accepting_client simone []))
               ∅ no_context
               (uyuniProvider.mkConfigureRequest
                  (mkDecoded [] (uyuniProviderModel.mk StringNull StringNull
                                   StringNull))))
          (uyuniProvider.mkConfigureResponse [] nil_any nil_any)).1
     = nil_any
  /\ api_calls
       (run (uyuniProvider.Configure (fun _ => inl (accepting_client simone []))
               ∅ no_context
               (uyuniProvider.mkConfigureRequest
                  (mkDecoded [] (uyuniProviderModel.mk StringNull StringNull
                                   StringNull))))
          (uyuniProvider.mkConfigureResponse [] nil_any nil_any)).2
     = [].
Proof.
  apply (Configure_reports_three_missing
           (fun _ => inl (accepting_client simone [])) ∅ no_context
           (uyuniProvider.mkConfigureRequest
              (mkDecoded [] (uyuniProviderModel.mk StringNull StringNull StringNull)))
           (uyuniProvider.mkConfigureResponse [] nil_any nil_any));
    reflexivity.
Defined.

(** ** Configure of the resource and of the data source *)

(** C10. On nil provider data, [Configure] of the user resource and of the
    users data source return at once: receiver and response stay as they
    were, so a client that was unset stays unset and no diagnostic is
    added.  On provider data of another type than [*api.HTTPClient], they
    add the error ["Unexpected Data Source Configure Type"], naming the type
    they got, and leave the receiver as it was. *)
Theorem Configure_nil_or_unexpected_type
    (r : userResource.t) (d : UsersDataSource.t) (resp : ConfigureResponse)
    (T : string) :
  call (userResource.Configure r (mkConfigureRequest nil_any)) resp = (r, resp, [])
  /\ call (UsersDataSource.Configure d (mkConfigureRequest nil_any)) resp
     = (d, resp, [])
  /\ call (userResource.Configure userResource.NewUserResource
             (mkConfigureRequest nil_any)) resp
     = (userResource.mk None, resp, [])
  /\ call (UsersDataSource.Configure UsersDataSource.NewUsersDataSource
             (mkConfigureRequest nil_any)) resp
     = (UsersDataSource.mk None, resp, [])
  /\ call (userResource.Configure r (mkConfigureRequest (other_type T))) resp
     = (r,
        mkConfigureResponse
          (diag.AddError (Diagnostics resp) "Unexpected Data Source Configure Type"
             ("Expected *uyuni.client, got: " +:+ T
                +:+ ". Please report this issue to the provider developers.")),
        [])
  /\ call (UsersDataSource.Configure d (mkConfigureRequest (other_type T))) resp
     = (d,
        mkConfigureResponse
          (diag.AddError (Diagnostics resp) "Unexpected Data Source Configure Type"
             ("Expected *api.HTTPClient, got: " +:+ T
                +:+ ". Please report this issue to the provider developers.")),
        [])
  /\ diag.NewErrorDiagnostic "Unexpected Data Source Configure Type"
       ("Expected *uyuni.client, got: " +:+ T
          +:+ ". Please report this issue to the provider developers.")
     ∈ Diagnostics
         (call (userResource.Configure r (mkConfigureRequest (other_type T)))
            resp).1.2
  /\ diag.NewErrorDiagnostic "Unexpected Data Source Configure Type"
       ("Expected *api.HTTPClient, got: " +:+ T
          +:+ ". Please report this issue to the provider developers.")
     ∈ Diagnostics
         (call (UsersDataSource.Configure d (mkConfigureRequest (other_type T)))
            resp).1.2
  /\ userResource.client
       (call (userResource.Configure userResource.NewUserResource
                (mkConfigureRequest (other_type T))) resp).1.1 = None
  /\ UsersDataSource.client
       (call (UsersDataSource.Configure UsersDataSource.NewUsersDataSource
                (mkConfigureRequest (other_type T))) resp).1.1 = None.
Proof.
  destruct resp as [ds].
  repeat split; try reflexivity; simpl; apply AddError_elem.
Qed.

(** On a fresh response the error is the only diagnostic. *)
Example Configure_unexpected_type_fresh :
  call (userResource.Configure userResource.NewUserResource
          (mkConfigureRequest (other_type "string"))) (mkConfigureResponse [])
  = (userResource.mk None,
     mkConfigureResponse
       [diag.NewErrorDiagnostic "Unexpected Data Source Configure Type"
          "Expected *uyuni.client, got: string. Please report this issue to the provider developers."],
     []).
Proof. reflexivity. Qed.

(** * Further properties of the package *)

(** ** user_resource.go *)


Lemma Delete_run (client : api.HTTPClient) (req : DeleteRequest)
    (resp : DeleteResponse) :
  run (Delete client req) resp =
  let state := Get_value (DeleteRequest_State req) in
  let ds := diag.Append (Diagnostics resp) (Get_diags (DeleteRequest_State req)) in
  if diag.HasError ds then (mkResponse ds (State resp), [])
  else match api.Post_int client
               ("user/delete?login=" +:+ ValueString (Login state)) ∅ with
       | inl _ =>
           (mkResponse ds (State resp),
            [ApiPost ("user/delete?login=" +:+ ValueString (Login state)) ∅])
       | inr err =>
           (mkResponse
              (diag.AddError ds "Error Deleting Uyuni user"
                 ("Could not delete order, unexpected error: " +:+ api.Error err))
              (State resp),
            [ApiPost ("user/delete?login=" +:+ ValueString (Login state)) ∅])
       end.
Proof.
  unfold Delete. unfold_op.
  destruct (diag.HasError (diag.Append _ _)) eqn:Herr; [done|].
  by destruct (api.Post_int _ _ _) as [r|err].
Qed.

(** When decoding the plan or the state reports an error, [Create], [Read]
    and [Delete] stop there: no log entry, no remote call, the state of the
    response as it was, and the error in the diagnostics. *)
Theorem decode_error_stops_operation
    (F : Formatter) (client : api.HTTPClient) (ctx : Context)
    (decoded : Decoded userResourceModel.t) (resp : Response userResourceModel.t) :
  diag.HasError (Get_diags decoded) = true ->
  run (Create F client ctx (mkCreateRequest decoded)) resp
  = (mkResponse (diag.Append (Diagnostics resp) (Get_diags decoded)) (State resp), [])
  /\ run (Read F client ctx (mkReadRequest decoded)) resp
     = (mkResponse (diag.Append (Diagnostics resp) (Get_diags decoded)) (State resp), [])
  /\ run (Delete client (mkDeleteRequest decoded)) resp
     = (mkResponse (diag.Append (Diagnostics resp) (Get_diags decoded)) (State resp), [])
  /\ diag.HasError (diag.Append (Diagnostics resp) (Get_diags decoded)) = true.
Proof.
  intros Herr.
  assert (diag.HasError (diag.Append (Diagnostics resp) (Get_diags decoded)) = true)
    as Happ by (rewrite Append_HasError, Herr; apply orb_true_r).
  rewrite Create_run, Read_run, Delete_run. cbv zeta. simpl in *.
  by rewrite Happ.
Qed.

Lemma decode_error_stops_operation_witness :
  run (Create example_Formatter (accepting_client simone []) no_context
         (mkCreateRequest decode_failure)) fresh_Response
  = (mkResponse (Get_diags decode_failure) None, [])
  /\ run (Read example_Formatter (accepting_client simone []) no_context
            (mkReadRequest decode_failure)) fresh_Response
     = (mkResponse (Get_diags decode_failure) None, [])
  /\ run (Delete (accepting_client simone []) (mkDeleteRequest decode_failure))
         fresh_Response
     = (mkResponse (Get_diags decode_failure) None, [])
  /\ diag.HasError (Get_diags decode_failure) = true.
Proof.
  apply (decode_error_stops_operation example_Formatter
           (accepting_client simone []) no_context decode_failure fresh_Response).
  reflexivity.
Defined.

(** Whatever the server answers, [Read] makes one remote call, the GET of
    [user/getDetails] for the login of the state; it never posts. *)
Theorem Read_only_gets_details
    (F : Formatter) (client : api.HTTPClient) (ctx : Context)
    (req : ReadRequest) (resp : ReadResponse) :
  diag.HasError (Diagnostics resp) = false ->
  diag.HasError (Get_diags (ReadRequest_State req)) = false ->
  api_calls (run (Read F client ctx req) resp).2
  = [ApiGet ("user/getDetails?login="
               +:+ ValueString (Login (Get_value (ReadRequest_State req))))].
Proof.
  intros Hresp Hstate. rewrite Read_run. cbv zeta.
  rewrite (accepted _ _ Hresp Hstate).
  by destruct (api.Get_user _ _).
Qed.

Lemma Read_only_gets_details_witness :
  api_calls (run (Read example_Formatter (failing_client "down") no_context
                    (mkReadRequest (mkDecoded [] sgiertz)))
               (mkResponse [] (Some sgiertz))).2
  = [ApiGet "user/getDetails?login=sgiertz"].
Proof.
  apply (Read_only_gets_details example_Formatter (failing_client "down")
           no_context (mkReadRequest (mkDecoded [] sgiertz))
           (mkResponse [] (Some sgiertz))); reflexivity.
Defined.

(** [Read] uses the state only through its login: two reads whose states
    have the same login leave the same trace (log and calls) and the same
    diagnostics, whatever the passwords and the other fields are. *)
Theorem Read_trace_depends_on_login_only
    (F : Formatter) (client : api.HTTPClient) (ctx : Context)
    (state1 state2 : userResourceModel.t) (ds : diag.Diagnostics)
    (resp1 resp2 : ReadResponse) :
  Login state1 = Login state2 ->
  Diagnostics resp1 = Diagnostics resp2 ->
  (run (Read F client ctx (mkReadRequest (mkDecoded ds state1))) resp1).2
  = (run (Read F client ctx (mkReadRequest (mkDecoded ds state2))) resp2).2
  /\ Diagnostics (run (Read F client ctx (mkReadRequest (mkDecoded ds state1))) resp1).1
     = Diagnostics (run (Read F client ctx (mkReadRequest (mkDecoded ds state2))) resp2).1.
Proof.
  intros HL HD. rewrite !Read_run. cbv zeta. simpl in *.
  unfold Read_trace_to_call. rewrite HL, HD.
  destruct (diag.HasError _); [done|].
  by destruct (api.Get_user _ _).
Qed.

Lemma Read_trace_depends_on_login_only_witness :
  (run (Read example_Formatter (accepting_client simone []) no_context
          (mkReadRequest (mkDecoded [] sgiertz))) (mkResponse [] (Some sgiertz))).2
  = (run (Read example_Formatter (accepting_client simone []) no_context
            (mkReadRequest
               (mkDecoded []
                  (userResourceModel.mk (StringValue "sgiertz")
                     (StringValue "hunter2") StringNull StringNull StringNull))))
       (mkResponse [] None)).2
  /\ Diagnostics
       (run (Read example_Formatter (accepting_client simone []) no_context
               (mkReadRequest (mkDecoded [] sgiertz)))
          (mkResponse [] (Some sgiertz))).1
     = Diagnostics
         (run (Read example_Formatter (accepting_client simone []) no_context
                 (mkReadRequest
                    (mkDecoded []
                       (userResourceModel.mk (StringValue "sgiertz")
                          (StringValue "hunter2") StringNull StringNull StringNull))))
            (mkResponse [] None)).1.
Proof.
  apply (Read_trace_depends_on_login_only example_Formatter
           (accepting_client simone []) no_context sgiertz
           (userResourceModel.mk (StringValue "sgiertz")
              (StringValue "hunter2") StringNull StringNull StringNull)
           [] (mkResponse [] (Some sgiertz)) (mkResponse [] None)); reflexivity.
Defined.

(** [Read] is idempotent: reading again, from the state a successful read
    has written and against the same server, writes that state again. *)
Theorem Read_idempotent
    (F : Formatter) (client : api.HTTPClient) (ctx : Context)
    (req : ReadRequest) (resp : ReadResponse) :
  diag.HasError (Diagnostics (run (Read F client ctx req) resp).1) = false ->
  exists state' : userResourceModel.t,
    State (run (Read F client ctx req) resp).1 = Some state'
    /\ run (Read F client ctx (mkReadRequest (mkDecoded [] state')))
           (mkResponse [] (Some state'))
       = (mkResponse [] (Some state'), (run (Read F client ctx req) resp).2).
Proof.
  rewrite !Read_run. cbv zeta.
  destruct (diag.HasError (diag.Append _ _)) eqn:Herr; simpl.
  { intros Habs. simpl in Herr. congruence. }
  destruct (api.Get_user _ _) as [this_user|err] eqn:Hget; simpl.
  - intros _. eexists. split; [done|].
    rewrite Read_run. cbv zeta. simpl. by rewrite Hget.
  - intros Habs. by rewrite AddError_HasError in Habs.
Qed.

Lemma Read_idempotent_witness :
  exists state' : userResourceModel.t,
    State (run (Read example_Formatter (accepting_client simone []) no_context
                  (mkReadRequest (mkDecoded [] sgiertz)))
             (mkResponse [] (Some sgiertz))).1 = Some state'
    /\ run (Read example_Formatter (accepting_client simone []) no_context
              (mkReadRequest (mkDecoded [] state')))
           (mkResponse [] (Some state'))
       = (mkResponse [] (Some state'),
          (run (Read example_Formatter (accepting_client simone []) no_context
                  (mkReadRequest (mkDecoded [] sgiertz)))
             (mkResponse [] (Some sgiertz))).2).
Proof.
  apply (Read_idempotent example_Formatter (accepting_client simone [])
           no_context (mkReadRequest (mkDecoded [] sgiertz))
           (mkResponse [] (Some sgiertz))).
  reflexivity.
Defined.

(** [Create] then [Read] against a server that stores what it was sent:
    when the plan's first name, last name and email are known values and
    [user/getDetails] answers with the values of the payload, the read
    writes the plan again, so the state does not drift. *)
Theorem Create_then_Read_echo
    (F : Formatter) (client client' : api.HTTPClient) (ctx : Context)
    (plan : userResourceModel.t) (r : api.ApiResponse Z)
    (this_user : api.ApiResponse Read_user_api.t) :
  api.Post_int client "user/create" (Create_data plan) = inl r ->
  api.Get_user client' ("user/getDetails?login=" +:+ ValueString (Login plan))
  = inl this_user ->
  Some (Read_user_api.First_name (api.Result this_user))
  = Create_data plan !! "firstName" ->
  Some (Read_user_api.Last_name (api.Result this_user))
  = Create_data plan !! "lastName" ->
  Some (Read_user_api.Email (api.Result this_user))
  = Create_data plan !! "email" ->
  FirstName plan = StringValue (ValueString (FirstName plan)) ->
  LastName plan = StringValue (ValueString (LastName plan)) ->
  Email plan = StringValue (ValueString (Email plan)) ->
  exists state : userResourceModel.t,
    State (run (Create F client ctx (mkCreateRequest (mkDecoded [] plan)))
             fresh_Response).1 = Some state
    /\ run (Read F client' ctx (mkReadRequest (mkDecoded [] state)))
           (mkResponse [] (Some state))
       = (mkResponse [] (Some plan),
          Read_trace_to_call ctx plan ++
          [Log LevelInfo ("Information returned from API: "
                            +:+ Sprintf_v_user F (api.Result this_user))
               (shown_fields ctx ++ [])]).
Proof.
  intros Hpost Hget HF HL HE HkF HkL HkE.
  rewrite Create_run. cbv zeta. simpl. rewrite Hpost. simpl.
  exists plan. split; [done|].
  rewrite Read_run. cbv zeta. simpl. rewrite Hget.
  unfold Create_data in HF, HL, HE. simplify_map_eq.
  unfold refreshed. rewrite HF, HL, HE.
  destruct plan as [l p f n e]; simpl in *. by rewrite <- HkF, <- HkL, <- HkE.
Qed.

Lemma Create_then_Read_echo_witness :
  exists state : userResourceModel.t,
    State (run (Create example_Formatter (echo_client (Create_data sgiertz))
                  no_context (mkCreateRequest (mkDecoded [] sgiertz)))
             fresh_Response).1 = Some state
    /\ run (Read example_Formatter (echo_client (Create_data sgiertz)) no_context
              (mkReadRequest (mkDecoded [] state)))
           (mkResponse [] (Some state))
       = (mkResponse [] (Some sgiertz),
          Read_trace_to_call no_context sgiertz ++
          [Log LevelInfo ("Information returned from API: " +:+ "{user}") []]).
Proof.
  apply (Create_then_Read_echo example_Formatter
           (echo_client (Create_data sgiertz)) (echo_client (Create_data sgiertz))
           no_context sgiertz (api.mkApiResponse 0%Z)
           (api.mkApiResponse
              (Read_user_api.mk "" "Simone" "Giertz" "sgiertz@foo.bar"
                 1 "" "" "" "" true false false false)));
    reflexivity.
Defined.

(** A null first name in the plan does drift: the read after the create
    writes the empty string where the plan had null. *)
Example Create_then_Read_null_drifts :
  State (run (Read example_Formatter
                (echo_client
                   (Create_data (userResourceModel.mk (StringValue "sgiertz")
                                   (StringValue "test123") StringNull
                                   (StringValue "Giertz") (StringValue "s@foo.bar"))))
                no_context
                (mkReadRequest
                   (mkDecoded []
                      (userResourceModel.mk (StringValue "sgiertz")
                         (StringValue "test123") StringNull
                         (StringValue "Giertz") (StringValue "s@foo.bar")))))
           fresh_Response).1
  = Some (userResourceModel.mk (StringValue "sgiertz") (StringValue "test123")
            (StringValue "") (StringValue "Giertz") (StringValue "s@foo.bar")).
Proof. reflexivity. Qed.

(** [Delete] never writes the state and never logs: on every input the
    state of the response is the one it was handed, and the trace holds no
    log entry. *)
Theorem Delete_leaves_state_and_log
    (client : api.HTTPClient) (req : DeleteRequest) (resp : DeleteResponse) :
  State (run (Delete client req) resp).1 = State resp
  /\ log_of (run (Delete client req) resp).2 = [].
Proof.
  rewrite Delete_run. cbv zeta.
  destruct (diag.HasError _); [done|].
  by destruct (api.Post_int _ _ _).
Qed.

(** When the state decodes without error, [Delete] makes one remote call:
    the POST of an empty body to [user/delete] for the login of the state.
    If the call succeeds no diagnostic is added; if it fails, one error is
    appended, whose detail ends with the message of the underlying error. *)
Theorem Delete_posts_once
    (client : api.HTTPClient) (req : DeleteRequest) (resp : DeleteResponse) :
  diag.HasError (Diagnostics resp) = false ->
  diag.HasError (Get_diags (DeleteRequest_State req)) = false ->
  api_calls (run (Delete client req) resp).2
  = [ApiPost ("user/delete?login="
                +:+ ValueString (Login (Get_value (DeleteRequest_State req)))) ∅]
  /\ Diagnostics (run (Delete client req) resp).1
     = match api.Post_int client
               ("user/delete?login="
                  +:+ ValueString (Login (Get_value (DeleteRequest_State req)))) ∅
       with
       | inl _ => diag.Append (Diagnostics resp) (Get_diags (DeleteRequest_State req))
       | inr err =>
           diag.Append (Diagnostics resp) (Get_diags (DeleteRequest_State req))
           ++ [diag.NewErrorDiagnostic "Error Deleting Uyuni user"
                 ("Could not delete order, unexpected error: " +:+ api.Error err)]
       end.
Proof.
  intros Hresp Hstate. rewrite Delete_run. cbv zeta.
  rewrite (accepted _ _ Hresp Hstate).
  destruct (api.Post_int _ _ _) as [r|err]; simpl; [done|].
  split; [done|]. apply AddError_fresh. by apply accepted.
Qed.

Lemma Delete_posts_once_witness :
  api_calls (run (Delete (failing_client "no such user")
                    (mkDeleteRequest (mkDecoded [] sgiertz)))
               (mkResponse [] (Some sgiertz))).2
  = [ApiPost "user/delete?login=sgiertz" ∅]
  /\ Diagnostics (run (Delete (failing_client "no such user")
                         (mkDeleteRequest (mkDecoded [] sgiertz)))
                    (mkResponse [] (Some sgiertz))).1
     = [diag.NewErrorDiagnostic "Error Deleting Uyuni user"
          "Could not delete order, unexpected error: no such user"].
Proof.
  apply (Delete_posts_once (failing_client "no such user")
           (mkDeleteRequest (mkDecoded [] sgiertz)) (mkResponse [] (Some sgiertz)));
    reflexivity.
Defined.

(** ** users_data_source.go *)

(** The listing is all or nothing: when [user/listUsers] fails, [Read] of
    the data source adds one error whose detail is the message of the
    underlying error, unchanged, and leaves the state as it was; in every
    case its only remote call is the GET of [user/listUsers]. *)
Theorem UsersDataSource_Read_failure
    (client : api.HTTPClient) (resp : UsersDataSource.ReadResponse)
    (err : api.error) :
  api.Get_users client "user/listUsers" = inr err ->
  State (run (UsersDataSource.Read client) resp).1 = State resp
  /\ diag.NewErrorDiagnostic "Unable to Read Uyuni user" (api.Error err)
     ∈ Diagnostics (run (UsersDataSource.Read client) resp).1
  /\ diag.HasError (Diagnostics (run (UsersDataSource.Read client) resp).1) = true
  /\ (run (UsersDataSource.Read client) resp).2 = [ApiGet "user/listUsers"].
Proof.
  intros Hget. rewrite UsersDataSource_Read_run, Hget. simpl.
  split; [done|]. split; [apply AddError_elem|].
  split; [apply AddError_HasError|done].
Qed.

Lemma UsersDataSource_Read_failure_witness :
  State (run (UsersDataSource.Read (failing_client "timeout")) fresh_Response).1
  = None
  /\ diag.NewErrorDiagnostic "Unable to Read Uyuni user" "timeout"
     ∈ Diagnostics
         (run (UsersDataSource.Read (failing_client "timeout")) fresh_Response).1
  /\ diag.HasError
       (Diagnostics
          (run (UsersDataSource.Read (failing_client "timeout")) fresh_Response).1)
     = true
  /\ (run (UsersDataSource.Read (failing_client "timeout")) fresh_Response).2
     = [ApiGet "user/listUsers"].
Proof.
  apply (UsersDataSource_Read_failure (failing_client "timeout") fresh_Response
           (api.mkError "timeout")).
  reflexivity.
Defined.

(** The listing is made of [id] and [login] alone: answers that agree on
    these two fields of every record give the same state, whatever
    [Login_UC] and [Enabled] are. *)
Theorem UsersDataSource_Read_uses_id_and_login
    (client1 client2 : api.HTTPClient) (resp : UsersDataSource.ReadResponse)
    (users1 users2 : api.ApiResponse (list user_api.t)) :
  api.Get_users client1 "user/listUsers" = inl users1 ->
  api.Get_users client2 "user/listUsers" = inl users2 ->
  List.map (fun u => (user_api.Id u, user_api.Login u)) (api.Result users1)
  = List.map (fun u => (user_api.Id u, user_api.Login u)) (api.Result users2) ->
  run (UsersDataSource.Read client1) resp = run (UsersDataSource.Read client2) resp.
Proof.
  intros H1 H2 Hsame. rewrite !UsersDataSource_Read_run, H1, H2.
  apply (f_equal (List.map (fun p => userModel.mk (Int64Value p.1) (StringValue p.2))))
    in Hsame.
  rewrite !List.map_map in Hsame. unfold listing_entry.
  simpl in Hsame. by rewrite Hsame.
Qed.

Lemma UsersDataSource_Read_uses_id_and_login_witness :
  run (UsersDataSource.Read (accepting_client simone two_users)) fresh_Response
  = run (UsersDataSource.Read
           (accepting_client simone
              [user_api.mk 1 "admin" "" false; user_api.mk 7 "sgiertz" "x" false]))
        fresh_Response.
Proof.
  apply (UsersDataSource_Read_uses_id_and_login
           (accepting_client simone two_users)
           (accepting_client simone
              [user_api.mk 1 "admin" "" false; user_api.mk 7 "sgiertz" "x" false])
           fresh_Response (api.mkApiResponse two_users)
           (api.mkApiResponse
              [user_api.mk 1 "admin" "" false; user_api.mk 7 "sgiertz" "x" false]));
    reflexivity.
Defined.

(** ** provider.go *)

Lemma Append_elem_l (new ds : diag.Diagnostics) (d : diag.Diagnostic) :
  d ∈ ds -> d ∈ diag.Append ds new.
Proof.
  unfold diag.Append. revert ds.
  induction new as [|n new IH]; intros ds Hin; simpl; [done|].
  apply IH. unfold diag.Append_one.
  destruct (decide _); [done|]. apply elem_of_app. by left.
Qed.

Lemma AddAttributeError_elem (ds : diag.Diagnostics) (p summary detail : string) :
  diag.NewAttributeErrorDiagnostic p summary detail
  ∈ diag.AddAttributeError ds p summary detail.
Proof.
  unfold diag.AddAttributeError, diag.Append, diag.Append_one. simpl.
  destruct (decide _) as [Hin|]; [done|].
  apply elem_of_app. right. by apply list_elem_of_singleton.
Qed.

Lemma AddAttributeError_elem_l (ds : diag.Diagnostics) (d : diag.Diagnostic)
    (p summary detail : string) :
  d ∈ ds -> d ∈ diag.AddAttributeError ds p summary detail.
Proof. apply Append_elem_l. Qed.

(** One branch of [Configure] after its conditions are decided. *)
Ltac provider_step :=
  simpl; rewrite ?AddAttributeError_HasError, ?AddError_HasError; simpl.

Ltac attribute_error_elem :=
  repeat first [ apply AddAttributeError_elem
               | apply AddAttributeError_elem_l ].

(** [Configure] hands out a client exactly when it reports no error: if
    the diagnostics it leaves hold an error, the data for data sources and
    resources is as it was; if they hold none, [api.Init] has returned a
    client and both are that client. *)
Theorem Configure_client_iff_no_error
    (Init : api.ConnectionDetails -> api.HTTPClient + api.error)
    (env : gmap string string) (ctx : Context)
    (req : uyuniProvider.ConfigureRequest) (resp : uyuniProvider.ConfigureResponse) :
  (diag.HasError (Diagnostics (run (uyuniProvider.Configure Init env ctx req) resp).1)
   = true ->
   uyuniProvider.DataSourceData (run (uyuniProvider.Configure Init env ctx req) resp).1
   = uyuniProvider.DataSourceData resp
   /\ uyuniProvider.ResourceData (run (uyuniProvider.Configure Init env ctx req) resp).1
      = uyuniProvider.ResourceData resp)
  /\ (diag.HasError (Diagnostics (run (uyuniProvider.Configure Init env ctx req) resp).1)
      = false ->
      exists (conn : api.ConnectionDetails) (client : api.HTTPClient),
        Init conn = inl client
        /\ uyuniProvider.DataSourceData
             (run (uyuniProvider.Configure Init env ctx req) resp).1
           = HTTPClient_ptr client
        /\ uyuniProvider.ResourceData
             (run (uyuniProvider.Configure Init env ctx req) resp).1
           = HTTPClient_ptr client).
Proof.
  unfold uyuniProvider.Configure. unfold_op.
  destruct (diag.HasError (diag.Append _ _)) eqn:H0; simpl.
  { split; [done|]. intros Habs. congruence. }
  destruct (IsUnknown (uyuniProviderModel.Host _)),
           (IsUnknown (uyuniProviderModel.Username _)),
           (IsUnknown (uyuniProviderModel.Password _));
    provider_step; rewrite ?H0; simpl;
    try (split; [done|]; intros Habs;
         by rewrite ?AddAttributeError_HasError in Habs).
  destruct (bool_decide (_ = "")), (bool_decide (_ = "")), (bool_decide (_ = ""));
    provider_step; rewrite ?H0; simpl;
    try (split; [done|]; intros Habs;
         by rewrite ?AddAttributeError_HasError in Habs).
  destruct (Init _) as [client|err] eqn:HInit; simpl.
  - split; [intros Habs; congruence|]. intros _. by eexists _, _.
  - split; [done|]. intros Habs. by rewrite AddError_HasError in Habs.
Qed.

Lemma Configure_client_iff_no_error_witness :
  uyuniProvider.DataSourceData
    (run (uyuniProvider.Configure (fun _ => inr (api.mkError "refused")) ∅
            no_context
            (uyuniProvider.mkConfigureRequest
               (mkDecoded [] (uyuniProviderModel.mk (StringValue "h")
                                (StringValue "u") (StringValue "p")))))
       (uyuniProvider.mkConfigureResponse [] nil_any nil_any)).1 = nil_any
  /\ uyuniProvider.ResourceData
       (run (uyuniProvider.Configure (fun _ => inr (api.mkError "refused")) ∅
               no_context
               (uyuniProvider.mkConfigureRequest
                  (mkDecoded [] (uyuniProviderModel.mk (StringValue "h")
                                   (StringValue "u") (StringValue "p")))))
          (uyuniProvider.mkConfigureResponse [] nil_any nil_any)).1 = nil_any.
Proof.
  apply (proj1 (Configure_client_iff_no_error
                  (fun _ => inr (api.mkError "refused")) ∅ no_context
                  (uyuniProvider.mkConfigureRequest
                     (mkDecoded [] (uyuniProviderModel.mk (StringValue "h")
                                      (StringValue "u") (StringValue "p"))))
                  (uyuniProvider.mkConfigureResponse [] nil_any nil_any))).
  reflexivity.
Defined.

(** An unknown value stops the configuration before the environment is
    read: when the configuration decodes without error and one of host,
    username, password is unknown, [Configure] reports an unknown-value
    error for each unknown attribute, does not call [api.Init], leaves the
    provider data as it was, and does the same in every environment. *)
Theorem Configure_unknown_value
    (Init : api.ConnectionDetails -> api.HTTPClient + api.error)
    (env env' : gmap string string) (ctx : Context)
    (req : uyuniProvider.ConfigureRequest) (resp : uyuniProvider.ConfigureResponse) :
  diag.HasError (Diagnostics resp) = false ->
  diag.HasError (Get_diags (uyuniProvider.Config req)) = false ->
  IsUnknown (uyuniProviderModel.Host (Get_value (uyuniProvider.Config req)))
  || IsUnknown (uyuniProviderModel.Username (Get_value (uyuniProvider.Config req)))
  || IsUnknown (uyuniProviderModel.Password (Get_value (uyuniProvider.Config req)))
  = true ->
  api_calls (run (uyuniProvider.Configure Init env ctx req) resp).2 = []
  /\ diag.HasError
       (Diagnostics (run (uyuniProvider.Configure Init env ctx req) resp).1) = true
  /\ (IsUnknown (uyuniProviderModel.Host (Get_value (uyuniProvider.Config req)))
      = true ->
      exists detail,
        diag.NewAttributeErrorDiagnostic "host" "Unknown Uyuni API Host" detail
        ∈ Diagnostics (run (uyuniProvider.Configure Init env ctx req) resp).1)
  /\ (IsUnknown (uyuniProviderModel.Username (Get_value (uyuniProvider.Config req)))
      = true ->
      exists detail,
        diag.NewAttributeErrorDiagnostic "username" "Unknown Uyuni API Username" detail
        ∈ Diagnostics (run (uyuniProvider.Configure Init env ctx req) resp).1)
  /\ (IsUnknown (uyuniProviderModel.Password (Get_value (uyuniProvider.Config req)))
      = true ->
      exists detail,
        diag.NewAttributeErrorDiagnostic "password" "Unknown Uyuni API Password" detail
        ∈ Diagnostics (run (uyuniProvider.Configure Init env ctx req) resp).1)
  /\ run (uyuniProvider.Configure Init env' ctx req) resp
     = run (uyuniProvider.Configure Init env ctx req) resp.
Proof.
  intros Hresp Hcfg Hunk.
  unfold uyuniProvider.Configure. unfold_op.
  pose proof (accepted _ _ Hresp Hcfg) as Hacc. simpl in Hacc. rewrite Hacc.
  destruct (IsUnknown (uyuniProviderModel.Host _)),
           (IsUnknown (uyuniProviderModel.Username _)),
           (IsUnknown (uyuniProviderModel.Password _));
    try discriminate Hunk; provider_step;
    (split; [done|]); (split; [apply AddAttributeError_HasError|]);
    repeat split; try (intros Habs; discriminate Habs);
    intros _; eexists; attribute_error_elem.
Qed.

Lemma Configure_unknown_value_witness :
  api_calls
    (run (uyuniProvider.Configure (fun _ => inl (accepting_client simone []))
            (<["UYUNI_HOST" := "h"]> ∅) no_context
            (uyuniProvider.mkConfigureRequest
               (mkDecoded [] (uyuniProviderModel.mk StringUnknown
                                (StringValue "u") StringUnknown))))
       (uyuniProvider.mkConfigureResponse [] nil_any nil_any)).2 = []
  /\ diag.HasError
       (Diagnostics
          (run (uyuniProvider.Configure (fun _ => inl (accepting_client simone []))
                  (<["UYUNI_HOST" := "h"]> ∅) no_context
                  (uyuniProvider.mkConfigureRequest
                     (mkDecoded [] (uyuniProviderModel.mk StringUnknown
                                      (StringValue "u") StringUnknown))))
             (uyuniProvider.mkConfigureResponse [] nil_any nil_any)).1) = true
  /\ (IsUnknown StringUnknown = true ->
      exists detail,
        diag.NewAttributeErrorDiagnostic "host" "Unknown Uyuni API Host" detail
        ∈ Diagnostics
            (run (uyuniProvider.Configure
                    (fun _ => inl (accepting_client simone []))
                    (<["UYUNI_HOST" := "h"]> ∅) no_context
                    (uyuniProvider.mkConfigureRequest
                       (mkDecoded [] (uyuniProviderModel.mk StringUnknown
                                        (StringValue "u") StringUnknown))))
               (uyuniProvider.mkConfigureResponse [] nil_any nil_any)).1)
  /\ (IsUnknown (StringValue "u") = true ->
      exists detail,
        diag.NewAttributeErrorDiagnostic "username" "Unknown Uyuni API Username" detail
        ∈ Diagnostics
            (run (uyuniProvider.Configure
                    (fun _ => inl (accepting_client simone []))
                    (<["UYUNI_HOST" := "h"]> ∅) no_context
                    (uyuniProvider.mkConfigureRequest
                       (mkDecoded [] (uyuniProviderModel.mk StringUnknown
                                        (StringValue "u") StringUnknown))))
               (uyuniProvider.mkConfigureResponse [] nil_any nil_any)).1)
  /\ (IsUnknown StringUnknown = true ->
      exists detail,
        diag.NewAttributeErrorDiagnostic "password" "Unknown Uyuni API Password" detail
        ∈ Diagnostics
            (run (uyuniProvider.Configure
                    (fun _ => inl (accepting_client simone []))
                    (<["UYUNI_HOST" := "h"]> ∅) no_context
                    (uyuniProvider.mkConfigureRequest
                       (mkDecoded [] (uyuniProviderModel.mk StringUnknown
                                        (StringValue "u") StringUnknown))))
               (uyuniProvider.mkConfigureResponse [] nil_any nil_any)).1)
  /\ run (uyuniProvider.Configure (fun _ => inl (accepting_client simone []))
            ∅ no_context
            (uyuniProvider.mkConfigureRequest
               (mkDecoded [] (uyuniProviderModel.mk StringUnknown
                                (StringValue "u") StringUnknown))))
         (uyuniProvider.mkConfigureResponse [] nil_any nil_any)
     = run (uyuniProvider.Configure (fun _ => inl (accepting_client simone []))
              (<["UYUNI_HOST" := "h"]> ∅) no_context
              (uyuniProvider.mkConfigureRequest
                 (mkDecoded [] (uyuniProviderModel.mk StringUnknown
                                  (StringValue "u") StringUnknown))))
           (uyuniProvider.mkConfigureResponse [] nil_any nil_any).
Proof.
  apply (Configure_unknown_value (fun _ => inl (accepting_client simone []))
           (<["UYUNI_HOST" := "h"]> ∅) ∅ no_context
           (uyuniProvider.mkConfigureRequest
              (mkDecoded [] (uyuniProviderModel.mk StringUnknown
                               (StringValue "u") StringUnknown)))
           (uyuniProvider.mkConfigureResponse [] nil_any nil_any));
    reflexivity.
Defined.

(** A value that resolves to the empty string is reported as missing,
    whether it comes from the configuration or from the environment: when
    the configuration decodes without error, nothing is unknown and one of
    the three resolved values is empty, [Configure] reports a missing-value
    error for each empty one, does not call [api.Init] and leaves the
    provider data as it was. *)
Theorem Configure_empty_is_missing
    (Init : api.ConnectionDetails -> api.HTTPClient + api.error)
    (env : gmap string string) (ctx : Context)
    (req : uyuniProvider.ConfigureRequest) (resp : uyuniProvider.ConfigureResponse) :
  diag.HasError (Diagnostics resp) = false ->
  diag.HasError (Get_diags (uyuniProvider.Config req)) = false ->
  IsUnknown (uyuniProviderModel.Host (Get_value (uyuniProvider.Config req))) = false ->
  IsUnknown (uyuniProviderModel.Username (Get_value (uyuniProvider.Config req)))
  = false ->
  IsUnknown (uyuniProviderModel.Password (Get_value (uyuniProvider.Config req)))
  = false ->
  explicit_or_env (uyuniProviderModel.Host (Get_value (uyuniProvider.Config req)))
    (uyuniProvider.os_Getenv env "UYUNI_HOST") = ""
  \/ explicit_or_env (uyuniProviderModel.Username (Get_value (uyuniProvider.Config req)))
       (uyuniProvider.os_Getenv env "UYUNI_USERNAME") = ""
  \/ explicit_or_env (uyuniProviderModel.Password (Get_value (uyuniProvider.Config req)))
       (uyuniProvider.os_Getenv env "UYUNI_PASSWORD") = "" ->
  api_calls (run (uyuniProvider.Configure Init env ctx req) resp).2 = []
  /\ diag.HasError
       (Diagnostics (run (uyuniProvider.Configure Init env ctx req) resp).1) = true
  /\ uyuniProvider.DataSourceData
       (run (uyuniProvider.Configure Init env ctx req) resp).1
     = uyuniProvider.DataSourceData resp
  /\ uyuniProvider.ResourceData
       (run (uyuniProvider.Configure Init env ctx req) resp).1
     = uyuniProvider.ResourceData resp
  /\ (explicit_or_env (uyuniProviderModel.Host (Get_value (uyuniProvider.Config req)))
        (uyuniProvider.os_Getenv env "UYUNI_HOST") = "" ->
      exists detail,
        diag.NewAttributeErrorDiagnostic "host" "Missing Uyuni API Host" detail
        ∈ Diagnostics (run (uyuniProvider.Configure Init env ctx req) resp).1)
  /\ (explicit_or_env
        (uyuniProviderModel.Username (Get_value (uyuniProvider.Config req)))
        (uyuniProvider.os_Getenv env "UYUNI_USERNAME") = "" ->
      exists detail,
        diag.NewAttributeErrorDiagnostic "username" "Missing Uyuni API Username" detail
        ∈ Diagnostics (run (uyuniProvider.Configure Init env ctx req) resp).1)
  /\ (explicit_or_env
        (uyuniProviderModel.Password (Get_value (uyuniProvider.Config req)))
        (uyuniProvider.os_Getenv env "UYUNI_PASSWORD") = "" ->
      exists detail,
        diag.NewAttributeErrorDiagnostic "password" "Missing Uyuni API Password" detail
        ∈ Diagnostics (run (uyuniProvider.Configure Init env ctx req) resp).1).
Proof.
  intros Hresp Hcfg HuH HuU HuP Hempty.
  unfold uyuniProvider.Configure. unfold_op.
  pose proof (accepted _ _ Hresp Hcfg) as Hacc. simpl in Hacc.
  rewrite Hacc, HuH, HuU, HuP. simpl. rewrite Hacc.
  rewrite !resolved_explicit_or_env.
  set (h := explicit_or_env (uyuniProviderModel.Host _) _) in *.
  set (u := explicit_or_env (uyuniProviderModel.Username _) _) in *.
  set (p := explicit_or_env (uyuniProviderModel.Password _) _) in *.
  destruct (bool_decide_reflect (h = "")) as [HH|HH],
           (bool_decide_reflect (u = "")) as [HU|HU],
           (bool_decide_reflect (p = "")) as [HP|HP];
    try (exfalso; tauto); provider_step;
    (split; [done|]); (split; [apply AddAttributeError_HasError|]);
    (split; [done|]); (split; [done|]);
    repeat split; intros Hk; try done; eexists; attribute_error_elem.
Qed.

(** An explicit empty host is missing even though [UYUNI_HOST] is set. *)
Lemma Configure_empty_is_missing_witness :
  api_calls
    (run (uyuniProvider.Configure (fun _ => inl (accepting_client simone []))
            (<["UYUNI_HOST" := "h"]> ∅) no_context
            (uyuniProvider.mkConfigureRequest
               (mkDecoded [] (uyuniProviderModel.mk (StringValue "")
                                (StringValue "u") (StringValue "p")))))
       (uyuniProvider.mkConfigureResponse [] nil_any nil_any)).2 = []
  /\ diag.HasError
       (Diagnostics
          (run (uyuniProvider.Configure (fun _ => inl (accepting_client simone []))
                  (<["UYUNI_HOST" := "h"]> ∅) no_context
                  (uyuniProvider.mkConfigureRequest
                     (mkDecoded [] (uyuniProviderModel.mk (StringValue "")
                                      (StringValue "u") (StringValue "p")))))
             (uyuniProvider.mkConfigureResponse [] nil_any nil_any)).1) = true.
Proof.
  pose proof (Configure_empty_is_missing
                (fun _ => inl (accepting_client simone []))
                (<["UYUNI_HOST" := "h"]> ∅) no_context
                (uyuniProvider.mkConfigureRequest
                   (mkDecoded [] (uyuniProviderModel.mk (StringValue "")
                                    (StringValue "u") (StringValue "p"))))
                (uyuniProvider.mkConfigureResponse [] nil_any nil_any)
                eq_refl eq_refl eq_refl eq_refl eq_refl (or_introl eq_refl))
    as [Hcalls [Herr _]].
  exact (conj Hcalls Herr).
Defined.

(** Explicit configuration wins over the environment: when host, username
    and password are all set in the configuration, [Configure] does the
    same in every environment. *)
Theorem Configure_explicit_wins
    (Init : api.ConnectionDetails -> api.HTTPClient + api.error)
    (env env' : gmap string string) (ctx : Context)
    (req : uyuniProvider.ConfigureRequest) (resp : uyuniProvider.ConfigureResponse) :
  IsNull (uyuniProviderModel.Host (Get_value (uyuniProvider.Config req))) = false ->
  IsNull (uyuniProviderModel.Username (Get_value (uyuniProvider.Config req))) = false ->
  IsNull (uyuniProviderModel.Password (Get_value (uyuniProvider.Config req))) = false ->
  run (uyuniProvider.Configure Init env' ctx req) resp
  = run (uyuniProvider.Configure Init env ctx req) resp.
Proof.
  intros HH HU HP. unfold uyuniProvider.Configure. unfold_op.
  by rewrite HH, HU, HP.
Qed.

Lemma Configure_explicit_wins_witness :
  run (uyuniProvider.Configure (fun _ => inl (accepting_client simone []))
         (<["UYUNI_HOST" := "other"]> (<["UYUNI_PASSWORD" := "secret"]> ∅))
         no_context
         (uyuniProvider.mkConfigureRequest
            (mkDecoded [] (uyuniProviderModel.mk (StringValue "192.168.1.100")
                             (StringValue "admin") (StringValue "admin")))))
      (uyuniProvider.mkConfigureResponse [] nil_any nil_any)
  = run (uyuniProvider.Configure (fun _ => inl (accepting_client simone []))
           ∅ no_context
           (uyuniProvider.mkConfigureRequest
              (mkDecoded [] (uyuniProviderModel.mk (StringValue "192.168.1.100")
                               (StringValue "admin") (StringValue "admin")))))
        (uyuniProvider.mkConfigureResponse [] nil_any nil_any).
Proof.
  apply (Configure_explicit_wins (fun _ => inl (accepting_client simone []))
           ∅ (<["UYUNI_HOST" := "other"]> (<["UYUNI_PASSWORD" := "secret"]> ∅))
           no_context
           (uyuniProvider.mkConfigureRequest
              (mkDecoded [] (uyuniProviderModel.mk (StringValue "192.168.1.100")
                               (StringValue "admin") (StringValue "admin"))))
           (uyuniProvider.mkConfigureResponse [] nil_any nil_any));
    reflexivity.
Defined.

(** The context of the log once the connection values are set on it. *)
Lemma shown_fields_masked (ctx : Context) (k v v' : string) :
  shown_fields (MaskFieldValuesWithFieldKeys (SetField ctx k v) k)
  = shown_fields (MaskFieldValuesWithFieldKeys (SetField ctx k v') k).
Proof.
  unfold shown_fields. simpl. rewrite !map_app. simpl.
  rewrite bool_decide_eq_true_2; [done|].
  apply elem_of_app. right. by apply list_elem_of_singleton.
Qed.

(** A run of [Configure] whose validation passes. *)
Lemma Configure_valid_run
    (Init : api.ConnectionDetails -> api.HTTPClient + api.error)
    (env : gmap string string) (ctx : Context)
    (req : uyuniProvider.ConfigureRequest) (resp : uyuniProvider.ConfigureResponse)
    (host username password : string) :
  diag.HasError (Diagnostics resp) = false ->
  diag.HasError (Get_diags (uyuniProvider.Config req)) = false ->
  IsUnknown (uyuniProviderModel.Host (Get_value (uyuniProvider.Config req))) = false ->
  IsUnknown (uyuniProviderModel.Username (Get_value (uyuniProvider.Config req)))
  = false ->
  IsUnknown (uyuniProviderModel.Password (Get_value (uyuniProvider.Config req)))
  = false ->
  explicit_or_env (uyuniProviderModel.Host (Get_value (uyuniProvider.Config req)))
    (uyuniProvider.os_Getenv env "UYUNI_HOST") = host ->
  explicit_or_env (uyuniProviderModel.Username (Get_value (uyuniProvider.Config req)))
    (uyuniProvider.os_Getenv env "UYUNI_USERNAME") = username ->
  explicit_or_env (uyuniProviderModel.Password (Get_value (uyuniProvider.Config req)))
    (uyuniProvider.os_Getenv env "UYUNI_PASSWORD") = password ->
  host <> "" -> username <> "" -> password <> "" ->
  run (uyuniProvider.Configure Init env ctx req) resp
  = let ds := diag.Append (Diagnostics resp) (Get_diags (uyuniProvider.Config req)) in
    let ctx' :=
      MaskFieldValuesWithFieldKeys
        (SetField (SetField (SetField ctx "uyuni_host" host)
                     "uyuni_username" username) "uyuni_password" password)
        "uyuni_password" in
    let start :=
      [Log LevelInfo "Configuring Uyuni client" (shown_fields ctx ++ []);
       Log LevelDebug "Creating HashiCups client" (shown_fields ctx' ++ []);
       ApiInit (api.mkConnectionDetails host username password "" true)] in
    match Init (api.mkConnectionDetails host username password "" true) with
    | inl client =>
        (uyuniProvider.mkConfigureResponse ds
           (HTTPClient_ptr client) (HTTPClient_ptr client),
         start ++ [Log LevelInfo "Configured Uyuni client"
                     (shown_fields ctx' ++ [("success", "true")])])
    | inr err =>
        (uyuniProvider.mkConfigureResponse
           (ds ++ [diag.NewErrorDiagnostic "Unable to Create Uyuni API Client"
                     ("An unexpected error occurred when creating the Uyuni API client. "
                      +:+ "If the error is not clear, please contact the provider developers."
                      +:+ String "010" (String "010" "")
                      +:+ "Uyuni Client Error: " +:+ api.Error err)])
           (uyuniProvider.DataSourceData resp) (uyuniProvider.ResourceData resp),
         start)
    end.
Proof.
  intros Hresp Hcfg HuH HuU HuP HH HU HP Hh Hu Hp.
  unfold uyuniProvider.Configure. unfold_op.
  pose proof (accepted _ _ Hresp Hcfg) as Hacc. simpl in Hacc.
  rewrite Hacc, HuH, HuU, HuP. simpl. rewrite Hacc.
  rewrite !resolved_explicit_or_env, HH, HU, HP.
  rewrite !bool_decide_eq_false_2 by done. simpl. rewrite Hacc.
  destruct (Init _); simpl; [done|].
  do 2 f_equal. by apply AddError_fresh.
Qed.

(** When validation passes, the outcome of [api.Init] decides: a client is
    handed to data sources and to resources alike and no diagnostic is
    added; an error is reported with the message of the underlying error at
    the end of its detail, and the provider data stays as it was. *)
Theorem Configure_Init_outcome
    (Init : api.ConnectionDetails -> api.HTTPClient + api.error)
    (env : gmap string string) (ctx : Context)
    (req : uyuniProvider.ConfigureRequest) (resp : uyuniProvider.ConfigureResponse) :
  diag.HasError (Diagnostics resp) = false ->
  diag.HasError (Get_diags (uyuniProvider.Config req)) = false ->
  IsUnknown (uyuniProviderModel.Host (Get_value (uyuniProvider.Config req))) = false ->
  IsUnknown (uyuniProviderModel.Username (Get_value (uyuniProvider.Config req)))
  = false ->
  IsUnknown (uyuniProviderModel.Password (Get_value (uyuniProvider.Config req)))
  = false ->
  explicit_or_env (uyuniProviderModel.Host (Get_value (uyuniProvider.Config req)))
    (uyuniProvider.os_Getenv env "UYUNI_HOST") <> "" ->
  explicit_or_env (uyuniProviderModel.Username (Get_value (uyuniProvider.Config req)))
    (uyuniProvider.os_Getenv env "UYUNI_USERNAME") <> "" ->
  explicit_or_env (uyuniProviderModel.Password (Get_value (uyuniProvider.Config req)))
    (uyuniProvider.os_Getenv env "UYUNI_PASSWORD") <> "" ->
  (run (uyuniProvider.Configure Init env ctx req) resp).1
  = match Init (api.mkConnectionDetails
                  (explicit_or_env
                     (uyuniProviderModel.Host (Get_value (uyuniProvider.Config req)))
                     (uyuniProvider.os_Getenv env "UYUNI_HOST"))
                  (explicit_or_env
                     (uyuniProviderModel.Username (Get_value (uyuniProvider.Config req)))
                     (uyuniProvider.os_Getenv env "UYUNI_USERNAME"))
                  (explicit_or_env
                     (uyuniProviderModel.Password (Get_value (uyuniProvider.Config req)))
                     (uyuniProvider.os_Getenv env "UYUNI_PASSWORD"))
                  "" true)
    with
    | inl client =>
        uyuniProvider.mkConfigureResponse
          (diag.Append (Diagnostics resp) (Get_diags (uyuniProvider.Config req)))
          (HTTPClient_ptr client) (HTTPClient_ptr client)
    | inr err =>
        uyuniProvider.mkConfigureResponse
          (diag.Append (Diagnostics resp) (Get_diags (uyuniProvider.Config req))
           ++ [diag.NewErrorDiagnostic "Unable to Create Uyuni API Client"
                 ("An unexpected error occurred when creating the Uyuni API client. "
                  +:+ "If the error is not clear, please contact the provider developers."
                  +:+ String "010" (String "010" "")
                  +:+ "Uyuni Client Error: " +:+ api.Error err)])
          (uyuniProvider.DataSourceData resp) (uyuniProvider.ResourceData resp)
    end.
Proof.
  intros Hresp Hcfg HuH HuU HuP HH HU HP.
  rewrite (Configure_valid_run Init env ctx req resp _ _ _
             Hresp Hcfg HuH HuU HuP eq_refl eq_refl eq_refl HH HU HP).
  cbv zeta. by destruct (Init _).
Qed.

Lemma Configure_Init_outcome_witness :
  (run (uyuniProvider.Configure (fun _ => inr (api.mkError "connection refused"))
          ∅ no_context
          (uyuniProvider.mkConfigureRequest
             (mkDecoded [] (uyuniProviderModel.mk (StringValue "h")
                              (StringValue "u") (StringValue "p")))))
       (uyuniProvider.mkConfigureResponse [] nil_any nil_any)).1
  = uyuniProvider.mkConfigureResponse
      [diag.NewErrorDiagnostic "Unable to Create Uyuni API Client"
         ("An unexpected error occurred when creating the Uyuni API client. "
          +:+ "If the error is not clear, please contact the provider developers."
          +:+ String "010" (String "010" "")
          +:+ "Uyuni Client Error: " +:+ "connection refused")]
      nil_any nil_any.
Proof.
  apply (Configure_Init_outcome (fun _ => inr (api.mkError "connection refused"))
           ∅ no_context
           (uyuniProvider.mkConfigureRequest
              (mkDecoded [] (uyuniProviderModel.mk (StringValue "h")
                               (StringValue "u") (StringValue "p"))))
           (uyuniProvider.mkConfigureResponse [] nil_any nil_any));
    first [reflexivity | discriminate].
Defined.

(** The log of [Configure] does not tell the password: two configurations
    that pass validation and differ only in their non-empty password leave
    the same log when [api.Init] accepts both.  ([tflog] masks the value of
    the field [uyuni_password]; compare with the log of [Create].) *)
Theorem Configure_log_masks_password
    (Init : api.ConnectionDetails -> api.HTTPClient + api.error)
    (env : gmap string string) (ctx : Context)
    (h u : tfString) (p1 p2 : string) (ds : diag.Diagnostics)
    (resp : uyuniProvider.ConfigureResponse) (client1 client2 : api.HTTPClient) :
  diag.HasError (Diagnostics resp) = false ->
  diag.HasError ds = false ->
  IsUnknown h = false -> IsUnknown u = false ->
  explicit_or_env h (uyuniProvider.os_Getenv env "UYUNI_HOST") <> "" ->
  explicit_or_env u (uyuniProvider.os_Getenv env "UYUNI_USERNAME") <> "" ->
  p1 <> "" -> p2 <> "" ->
  Init (api.mkConnectionDetails
          (explicit_or_env h (uyuniProvider.os_Getenv env "UYUNI_HOST"))
          (explicit_or_env u (uyuniProvider.os_Getenv env "UYUNI_USERNAME"))
          p1 "" true) = inl client1 ->
  Init (api.mkConnectionDetails
          (explicit_or_env h (uyuniProvider.os_Getenv env "UYUNI_HOST"))
          (explicit_or_env u (uyuniProvider.os_Getenv env "UYUNI_USERNAME"))
          p2 "" true) = inl client2 ->
  log_of (run (uyuniProvider.Configure Init env ctx
                 (uyuniProvider.mkConfigureRequest
                    (mkDecoded ds (uyuniProviderModel.mk h u (StringValue p1)))))
            resp).2
  = log_of (run (uyuniProvider.Configure Init env ctx
                   (uyuniProvider.mkConfigureRequest
                      (mkDecoded ds (uyuniProviderModel.mk h u (StringValue p2)))))
              resp).2.
Proof.
  intros Hresp Hds Hh Hu HH HU Hp1 Hp2 HI1 HI2.
  rewrite (Configure_valid_run Init env ctx
             (uyuniProvider.mkConfigureRequest
                (mkDecoded ds (uyuniProviderModel.mk h u (StringValue p1))))
             resp _ _ p1
             Hresp Hds Hh Hu eq_refl eq_refl eq_refl eq_refl HH HU Hp1).
  rewrite (Configure_valid_run Init env ctx
             (uyuniProvider.mkConfigureRequest
                (mkDecoded ds (uyuniProviderModel.mk h u (StringValue p2))))
             resp _ _ p2
             Hresp Hds Hh Hu eq_refl eq_refl eq_refl eq_refl HH HU Hp2).
  cbv zeta. simpl. rewrite HI1, HI2. simpl.
  by rewrite (shown_fields_masked _ "uyuni_password" p1 p2).
Qed.

Lemma Configure_log_masks_password_witness :
  log_of (run (uyuniProvider.Configure (fun _ => inl (accepting_client simone []))
                 ∅ no_context
                 (uyuniProvider.mkConfigureRequest
                    (mkDecoded [] (uyuniProviderModel.mk (StringValue "h")
                                     (StringValue "admin") (StringValue "admin")))))
            (uyuniProvider.mkConfigureResponse [] nil_any nil_any)).2
  = log_of (run (uyuniProvider.Configure
                   (fun _ => inl (accepting_client simone []))
                   ∅ no_context
                   (uyuniProvider.mkConfigureRequest
                      (mkDecoded [] (uyuniProviderModel.mk (StringValue "h")
                                       (StringValue "admin") (StringValue "hunter2")))))
              (uyuniProvider.mkConfigureResponse [] nil_any nil_any)).2.
Proof.
  apply (Configure_log_masks_password (fun _ => inl (accepting_client simone []))
           ∅ no_context (StringValue "h") (StringValue "admin") "admin" "hunter2" []
           (uyuniProvider.mkConfigureResponse [] nil_any nil_any)
           (accepting_client simone []) (accepting_client simone []));
    first [reflexivity | discriminate].
Defined.

(** ** The provider and its resources together *)

(** The client that [api.Init] returns reaches every resource and every
    data source of the provider: configured with the data the provider's
    [Configure] left, each gets that client and no diagnostic. *)
Theorem provider_client_reaches_all
    (Init : api.ConnectionDetails -> api.HTTPClient + api.error)
    (env : gmap string string) (ctx : Context)
    (req : uyuniProvider.ConfigureRequest) (resp : uyuniProvider.ConfigureResponse)
    (p : uyuniProvider.t) (client : api.HTTPClient) :
  diag.HasError (Diagnostics resp) = false ->
  diag.HasError (Get_diags (uyuniProvider.Config req)) = false ->
  IsUnknown (uyuniProviderModel.Host (Get_value (uyuniProvider.Config req))) = false ->
  IsUnknown (uyuniProviderModel.Username (Get_value (uyuniProvider.Config req)))
  = false ->
  IsUnknown (uyuniProviderModel.Password (Get_value (uyuniProvider.Config req)))
  = false ->
  explicit_or_env (uyuniProviderModel.Host (Get_value (uyuniProvider.Config req)))
    (uyuniProvider.os_Getenv env "UYUNI_HOST") <> "" ->
  explicit_or_env (uyuniProviderModel.Username (Get_value (uyuniProvider.Config req)))
    (uyuniProvider.os_Getenv env "UYUNI_USERNAME") <> "" ->
  explicit_or_env (uyuniProviderModel.Password (Get_value (uyuniProvider.Config req)))
    (uyuniProvider.os_Getenv env "UYUNI_PASSWORD") <> "" ->
  Init (api.mkConnectionDetails
          (explicit_or_env
             (uyuniProviderModel.Host (Get_value (uyuniProvider.Config req)))
             (uyuniProvider.os_Getenv env "UYUNI_HOST"))
          (explicit_or_env
             (uyuniProviderModel.Username (Get_value (uyuniProvider.Config req)))
             (uyuniProvider.os_Getenv env "UYUNI_USERNAME"))
          (explicit_or_env
             (uyuniProviderModel.Password (Get_value (uyuniProvider.Config req)))
             (uyuniProvider.os_Getenv env "UYUNI_PASSWORD"))
          "" true) = inl client ->
  Forall
    (fun r =>
       call (userResource.Configure r
               (mkConfigureRequest
                  (uyuniProvider.ResourceData
                     (run (uyuniProvider.Configure Init env ctx req) resp).1)))
            (mkConfigureResponse [])
       = (userResource.mk (Some client), mkConfigureResponse [], []))
    (uyuniProvider.Resources p)
  /\ Forall
       (fun d =>
          call (UsersDataSource.Configure d
                  (mkConfigureRequest
                     (uyuniProvider.DataSourceData
                        (run (uyuniProvider.Configure Init env ctx req) resp).1)))
               (mkConfigureResponse [])
          = (UsersDataSource.mk (Some client), mkConfigureResponse [], []))
       (uyuniProvider.DataSources p).
Proof.
  intros Hresp Hcfg HuH HuU HuP HH HU HP HInit.
  rewrite (Configure_valid_run Init env ctx req resp _ _ _
             Hresp Hcfg HuH HuU HuP eq_refl eq_refl eq_refl HH HU HP).
  cbv zeta. rewrite HInit. simpl.
  split; repeat constructor.
Qed.

Lemma provider_client_reaches_all_witness :
  Forall
    (fun r =>
       call (userResource.Configure r
               (mkConfigureRequest
                  (uyuniProvider.ResourceData
                     (run (uyuniProvider.Configure
                             (fun _ => inl (accepting_client simone two_users))
                             ∅ no_context
                             (uyuniProvider.mkConfigureRequest
                                (mkDecoded []
                                   (uyuniProviderModel.mk (StringValue "192.168.1.100")
                                      (StringValue "admin") (StringValue "admin")))))
                        (uyuniProvider.mkConfigureResponse [] nil_any nil_any)).1)))
            (mkConfigureResponse [])
       = (userResource.mk (Some (accepting_client simone two_users)),
          mkConfigureResponse [], []))
    (uyuniProvider.Resources (uyuniProvider.New "dev"))
  /\ Forall
       (fun d =>
          call (UsersDataSource.Configure d
                  (mkConfigureRequest
                     (uyuniProvider.DataSourceData
                        (run (uyuniProvider.Configure
                                (fun _ => inl (accepting_client simone two_users))
                                ∅ no_context
                                (uyuniProvider.mkConfigureRequest
                                   (mkDecoded []
                                      (uyuniProviderModel.mk
                                         (StringValue "192.168.1.100")
                                         (StringValue "admin") (StringValue "admin")))))
                           (uyuniProvider.mkConfigureResponse [] nil_any nil_any)).1)))
               (mkConfigureResponse [])
          = (UsersDataSource.mk (Some (accepting_client simone two_users)),
             mkConfigureResponse [], []))
       (uyuniProvider.DataSources (uyuniProvider.New "dev")).
Proof.
  apply (provider_client_reaches_all
           (fun _ => inl (accepting_client simone two_users)) ∅ no_context
           (uyuniProvider.mkConfigureRequest
              (mkDecoded []
                 (uyuniProviderModel.mk (StringValue "192.168.1.100")
                    (StringValue "admin") (StringValue "admin"))))
           (uyuniProvider.mkConfigureResponse [] nil_any nil_any)
           (uyuniProvider.New "dev") (accepting_client simone two_users));
    first [reflexivity | discriminate].
Defined.

(** When the provider's [Configure] reports an error on a response that
    held no provider data, nothing gets a client: every resource and data
    source configured with what it left keeps its nil client, without a
    diagnostic of its own. *)
Theorem provider_error_configures_nothing
    (Init : api.ConnectionDetails -> api.HTTPClient + api.error)
    (env : gmap string string) (ctx : Context)
    (req : uyuniProvider.ConfigureRequest) (ds : diag.Diagnostics)
    (p : uyuniProvider.t) :
  diag.HasError
    (Diagnostics
       (run (uyuniProvider.Configure Init env ctx req)
          (uyuniProvider.mkConfigureResponse ds nil_any nil_any)).1) = true ->
  Forall
    (fun r =>
       call (userResource.Configure r
               (mkConfigureRequest
                  (uyuniProvider.ResourceData
                     (run (uyuniProvider.Configure Init env ctx req)
                        (uyuniProvider.mkConfigureResponse ds nil_any nil_any)).1)))
            (mkConfigureResponse [])
       = (userResource.mk None, mkConfigureResponse [], []))
    (uyuniProvider.Resources p)
  /\ Forall
       (fun d =>
          call (UsersDataSource.Configure d
                  (mkConfigureRequest
                     (uyuniProvider.DataSourceData
                        (run (uyuniProvider.Configure Init env ctx req)
                           (uyuniProvider.mkConfigureResponse ds nil_any nil_any)).1)))
               (mkConfigureResponse [])
          = (UsersDataSource.mk None, mkConfigureResponse [], []))
       (uyuniProvider.DataSources p).
Proof.
  unfold uyuniProvider.Configure. unfold_op.
  destruct (diag.HasError (diag.Append _ _)) eqn:H0; simpl.
  { intros _. split; repeat constructor. }
  destruct (IsUnknown (uyuniProviderModel.Host _)),
           (IsUnknown (uyuniProviderModel.Username _)),
           (IsUnknown (uyuniProviderModel.Password _));
    provider_step; rewrite ?H0; simpl;
    try (intros _; split; by repeat constructor).
  destruct (bool_decide (_ = "")), (bool_decide (_ = "")), (bool_decide (_ = ""));
    provider_step; rewrite ?H0; simpl;
    try (intros _; split; by repeat constructor).
  destruct (Init _) as [client|err]; simpl.
  - intros Habs. congruence.
  - intros _. split; by repeat constructor.
Qed.

Lemma provider_error_configures_nothing_witness :
  Forall
    (fun r =>
       call (userResource.Configure r
               (mkConfigureRequest
                  (uyuniProvider.ResourceData
                     (run (uyuniProvider.Configure
                             (fun _ => inl (accepting_client simone [])) ∅ no_context
                             (uyuniProvider.mkConfigureRequest
                                (mkDecoded []
                                   (uyuniProviderModel.mk StringNull StringNull
                                      StringNull))))
                        (uyuniProvider.mkConfigureResponse [] nil_any nil_any)).1)))
            (mkConfigureResponse [])
       = (userResource.mk None, mkConfigureResponse [], []))
    (uyuniProvider.Resources (uyuniProvider.New "dev"))
  /\ Forall
       (fun d =>
          call (UsersDataSource.Configure d
                  (mkConfigureRequest
                     (uyuniProvider.DataSourceData
                        (run (uyuniProvider.Configure
                                (fun _ => inl (accepting_client simone [])) ∅
                                no_context
                                (uyuniProvider.mkConfigureRequest
                                   (mkDecoded []
                                      (uyuniProviderModel.mk StringNull StringNull
                                         StringNull))))
                           (uyuniProvider.mkConfigureResponse [] nil_any nil_any)).1)))
               (mkConfigureResponse [])
          = (UsersDataSource.mk None, mkConfigureResponse [], []))
       (uyuniProvider.DataSources (uyuniProvider.New "dev")).
Proof.
  apply (provider_error_configures_nothing
           (fun _ => inl (accepting_client simone [])) ∅ no_context
           (uyuniProvider.mkConfigureRequest
              (mkDecoded [] (uyuniProviderModel.mk StringNull StringNull StringNull)))
           [] (uyuniProvider.New "dev")).
  reflexivity.
Defined.

(** The type names: for every provider type name the resource and the
    data source get different names, and with the name the provider gives
    itself they are [uyuni_user] and [uyuni_users], whatever the version. *)
Theorem Metadata_type_names (ProviderTypeName version : string) :
  userResource.Metadata ProviderTypeName
  <> UsersDataSource.Metadata ProviderTypeName
  /\ userResource.Metadata (uyuniProvider.Metadata (uyuniProvider.New version)).1
     = "uyuni_user"
  /\ UsersDataSource.Metadata (uyuniProvider.Metadata (uyuniProvider.New version)).1
     = "uyuni_users"
  /\ (uyuniProvider.Metadata (uyuniProvider.New version)).2 = version.
Proof.
  split; [|done].
  unfold userResource.Metadata, UsersDataSource.Metadata.
  intros Heq. apply string_app_inv_head in Heq. discriminate Heq.
Qed.
